(** * Bonding curve model of the memecoin launchpad

    A shallow embedding of [src/bondingCurveModel.js] (class
    [BondingCurveModel]) together with the part of the decimal
    library [bignumber.js] that the class relies on, configured as in the
    source: [DECIMAL_PLACES = 18] and [ROUNDING_MODE = ROUND_DOWN]. *)

From Stdlib Require Import ZArith QArith Qpower Qabs Lia Lqa List String Ascii Bool.
Import ListNotations.

Local Open Scope Q_scope.

(** ** The decimal library

    The operations of [bignumber.js] (API of version 9) that the class
    calls.  A [BigNumber] is NaN, an infinity or a finite decimal; a finite
    value is held as an exact rational, and every operation returns it in
    lowest terms.  [plus], [minus] and [times] are exact; [div] keeps
    [DECIMAL_PLACES] fractional digits and drops the rest (rounding toward
    zero); [pow] accepts integer exponents only and throws on any other
    finite exponent; division by zero does not throw, it gives an infinity
    or NaN.  Not modelled: the sign of zero and the library's bound on
    decimal exponents (1e9). *)
Module BigNumber.

(** The library's only exception on the paths used here:
    "[BigNumber Error] Exponent not an integer". *)
Inductive Error : Type :=
| ExponentNotInteger.

Inductive t : Type :=
| NaN
| Infinity (negative : bool)
| Fin (q : Q).

Definition DECIMAL_PLACES : positive := 18.

Definition scale : positive := (10 ^ DECIMAL_PLACES)%positive.

Definition fin (q : Q) : t := Fin (Qred q).

Definition ofZ (z : Z) : t := Fin (inject_Z z).

Definition ZERO : t := ofZ 0.
Definition ONE : t := ofZ 1.

Definition isNegativeQ (q : Q) : bool := negb (Qle_bool 0 q).
Definition isZeroQ (q : Q) : bool := Qeq_bool q 0.

(** ROUND_DOWN at 18 decimal places: truncation toward zero. *)
Definition round_down (q : Q) : Q :=
  Qred (Z.quot (Qnum q * Z.pos scale) (Z.pos (Qden q)) # scale).

Definition negated (x : t) : t :=
  match x with
  | NaN => NaN
  | Infinity n => Infinity (negb n)
  | Fin q => fin (- q)
  end.

Definition plus (x y : t) : t :=
  match x, y with
  | NaN, _ | _, NaN => NaN
  | Infinity a, Infinity b => if Bool.eqb a b then Infinity a else NaN
  | Infinity a, Fin _ => Infinity a
  | Fin _, Infinity b => Infinity b
  | Fin p, Fin q => fin (p + q)
  end.

Definition minus (x y : t) : t := plus x (negated y).

Definition times (x y : t) : t :=
  match x, y with
  | NaN, _ | _, NaN => NaN
  | Infinity a, Infinity b => Infinity (xorb a b)
  | Infinity a, Fin q =>
      if isZeroQ q then NaN else Infinity (xorb a (isNegativeQ q))
  | Fin p, Infinity b =>
      if isZeroQ p then NaN else Infinity (xorb (isNegativeQ p) b)
  | Fin p, Fin q => fin (p * q)
  end.

(** [x.div(y)]: NaN when either is NaN or both are infinite or both are
    zero; zero when [x] is zero or [y] is infinite; an infinity when [y]
    is zero; otherwise the quotient truncated to 18 places. *)
Definition div (x y : t) : t :=
  match x, y with
  | NaN, _ | _, NaN => NaN
  | Infinity _, Infinity _ => NaN
  | Infinity a, Fin q => Infinity (xorb a (isNegativeQ q))
  | Fin _, Infinity _ => ZERO
  | Fin p, Fin q =>
      if isZeroQ q then
        if isZeroQ p then NaN else Infinity (isNegativeQ p)
      else Fin (round_down (p / q))
  end.

(** [x.comparedTo(y)]: [None] when either is NaN. *)
Definition comparedTo (x y : t) : option comparison :=
  match x, y with
  | NaN, _ | _, NaN => None
  | Infinity a, Infinity b =>
      Some (if Bool.eqb a b then Eq else if a then Lt else Gt)
  | Infinity a, Fin _ => Some (if a then Lt else Gt)
  | Fin _, Infinity b => Some (if b then Gt else Lt)
  | Fin p, Fin q => Some (p ?= q)
  end.

Definition gt (x y : t) : bool :=
  match comparedTo x y with Some Gt => true | _ => false end.

Definition gte (x y : t) : bool :=
  match comparedTo x y with Some Gt | Some Eq => true | _ => false end.

Definition isIntegerQ (q : Q) : bool := Pos.eqb (Qden (Qred q)) 1.

Definition isOddQ (q : Q) : bool := Z.odd (Qnum (Qred q)).

(** [Math.pow] on the operands that [pow] hands over to it: the base is
    NaN, an infinity, zero or of magnitude one, or the exponent is NaN,
    an infinity or zero.  A finite exponent is an integer here.  (The
    library converts a finite base to a double first; the magnitude test
    against one is done on the exact value.) *)
Definition mathPow (x n : t) : t :=
  match n with
  | NaN => NaN
  | Fin e =>
      if isZeroQ e then ONE else
      match x with
      | NaN => NaN
      | Infinity neg =>
          if isNegativeQ e then ZERO
          else Infinity (neg && isOddQ e)
      | Fin b =>
          if isZeroQ b then
            if isNegativeQ e then Infinity false else ZERO
          else if isNegativeQ b && isOddQ e then ofZ (-1) else ONE
      end
  | Infinity eneg =>
      match x with
      | NaN => NaN
      | Infinity _ => if eneg then ZERO else Infinity false
      | Fin b =>
          match Qabs b ?= 1 with
          | Eq => NaN
          | Gt => if eneg then ZERO else Infinity false
          | Lt => if eneg then Infinity false else ZERO
          end
      end
  end.

Definition isSpecialBase (x : t) : bool :=
  match x with
  | Fin b => isZeroQ b || Qeq_bool (Qabs b) 1
  | _ => true
  end.

Definition isSpecialExponent (n : t) : bool :=
  match n with
  | Fin e => isZeroQ e
  | _ => true
  end.

Definition exponentIsValid (n : t) : bool :=
  match n with
  | Fin e => isIntegerQ e
  | _ => true
  end.

(** [x.pow(n)] (alias of [exponentiatedBy]) with [POW_PRECISION = 0]:
    raises when [n] is finite and not an integer; a negative exponent
    gives [ONE.div] of the exact positive power. *)
Definition pow (x n : t) : Error + t :=
  if negb (exponentIsValid n) then inl ExponentNotInteger
  else if isSpecialBase x || isSpecialExponent n then inr (mathPow x n)
  else
    match x, n with
    | Fin b, Fin e =>
        let y := fin (Qpower b (Z.abs (Qnum (Qred e)))) in
        inr (if isNegativeQ e then div ONE y else y)
    | _, _ => inr NaN
    end.

End BigNumber.

(** ** JavaScript values handed to the class

    Amounts and constructor options are documented as
    [BigNumber|string|number]; an absent option reads as [undefined].  A
    number is given by the decimal it denotes. *)
Inductive JsValue : Type :=
| JUndefined
| JNumber (n : BigNumber.t)
| JString (s : string)
| JBigNumber (b : BigNumber.t).

(** Truthiness, as tested by [||]: [undefined], the numbers zero and NaN
    and the empty string are falsy; every other string and every object
    is truthy. *)
Definition truthy (v : JsValue) : bool :=
  match v with
  | JUndefined => false
  | JNumber BigNumber.NaN => false
  | JNumber (BigNumber.Fin q) => negb (BigNumber.isZeroQ q)
  | JNumber (BigNumber.Infinity _) => true
  | JString s => negb (String.eqb s EmptyString)
  | JBigNumber _ => true
  end.

(** [a || b] *)
Definition or_else (a b : JsValue) : JsValue := if truthy a then a else b.

Module Literal.

Definition digit (c : ascii) : option Z :=
  let n := nat_of_ascii c in
  if (48 <=? n)%nat && (n <=? 57)%nat then Some (Z.of_nat (n - 48)) else None.

(** Reads the longest run of digits: its value, its length, the rest. *)
Fixpoint digits (s : string) (acc : Z) (len : nat) : Z * nat * string :=
  match s with
  | String c r =>
      match digit c with
      | Some d => digits r (10 * acc + d) (S len)
      | None => (acc, len, s)
      end
  | EmptyString => (acc, len, s)
  end.

Definition exponent (s : string) : option Z :=
  match s with
  | EmptyString => Some 0%Z
  | String c r =>
      if Ascii.eqb c "e" || Ascii.eqb c "E" then
        let '(neg, r') :=
          match r with
          | String "-" r' => (true, r')
          | String "+" r' => (false, r')
          | _ => (false, r)
          end in
        match digits r' 0 0 with
        | (_, O, _) => None
        | (v, _, EmptyString) => Some (if neg then (- v)%Z else v)
        | _ => None
        end
      else None
  end.

Definition pow10 (e : Z) : Q :=
  match e with
  | Z0 => 1
  | Zpos p => inject_Z (10 ^ Zpos p)
  | Zneg p => 1 # (10 ^ p)
  end.

(** An unsigned decimal literal: digits with an optional fraction, or a
    fraction alone, then an optional exponent. *)
Definition unsigned (s : string) : option Q :=
  let '(ip, ilen, r) := digits s 0 0 in
  let '(fp, flen, r') :=
    match r with
    | String "." r1 => digits r1 0 0
    | _ => (0%Z, O, r)
    end in
  if (ilen =? 0)%nat && (flen =? 0)%nat then None
  else
    match exponent r' with
    | Some e =>
        Some ((inject_Z ip + inject_Z fp * pow10 (- Z.of_nat flen)) * pow10 e)
    | None => None
    end.

(** [new BigNumber(string)] for decimal notation, [Infinity] and [NaN];
    any other text reads as NaN (radix prefixes, a leading plus sign and
    surrounding blanks are not modelled). *)
Definition parse (s : string) : BigNumber.t :=
  let '(neg, body) :=
    match s with
    | String "-" r => (true, r)
    | _ => (false, s)
    end in
  if String.eqb body "Infinity" then BigNumber.Infinity neg
  else
    match unsigned body with
    | Some q => BigNumber.fin (if neg then - q else q)
    | None => BigNumber.NaN
    end.

End Literal.

(** [new BigNumber(v)] *)
Definition toBigNumber (v : JsValue) : BigNumber.t :=
  match v with
  | JUndefined => BigNumber.NaN
  | JNumber n => n
  | JString s => Literal.parse s
  | JBigNumber b => b
  end.

(** ** The class [BondingCurveModel] *)

Inductive Exception : Type :=
| BigNumberError (e : BigNumber.Error)
| InsufficientTokenBalance.

Inductive Milestone : Type :=
| AddDexLiquidity
| FirstBurn
| SecondBurn.


Module LiquidityMilestones.
Record t : Type := make
  { addDexLiquidity : BigNumber.t;
    firstBurn : BigNumber.t;
    secondBurn : BigNumber.t }.
End LiquidityMilestones.

Module BurnPercentages.
Record t : Type := make
  { firstBurn : BigNumber.t;
    secondBurn : BigNumber.t }.
End BurnPercentages.

(** The fields of an instance ([this]).  [fired] is a history variable
    that the source does not have: it lists, oldest first, the milestones
    whose branch of [checkMilestones] has been executed. *)
Record CurveState : Type := mkCurveState
  { initialSupply : BigNumber.t;
    reserveRatio : BigNumber.t;
    initialPrice : BigNumber.t;
    fee : BigNumber.t;
    currentSupply : BigNumber.t;
    poolBalance : BigNumber.t;
    liquidityMilestones : LiquidityMilestones.t;
    burnPercentages : BurnPercentages.t;
    fired : list Milestone }.

Definition with_currentSupply (v : BigNumber.t) (s : CurveState) : CurveState :=
  mkCurveState (initialSupply s) (reserveRatio s) (initialPrice s) (fee s)
    v (poolBalance s) (liquidityMilestones s) (burnPercentages s) (fired s).

Definition with_poolBalance (v : BigNumber.t) (s : CurveState) : CurveState :=
  mkCurveState (initialSupply s) (reserveRatio s) (initialPrice s) (fee s)
    (currentSupply s) v (liquidityMilestones s) (burnPercentages s) (fired s).

Definition with_fired (v : list Milestone) (s : CurveState) : CurveState :=
  mkCurveState (initialSupply s) (reserveRatio s) (initialPrice s) (fee s)
    (currentSupply s) (poolBalance s) (liquidityMilestones s)
    (burnPercentages s) v.

(** A method call either returns a value or throws; both leave an
    instance behind. *)
Inductive Outcome (A : Type) : Type :=
| Returned (a : A) (s : CurveState)
| Thrown (e : Exception) (s : CurveState).

Arguments Returned {A} a s.
Arguments Thrown {A} e s.

Definition stateOf {A} (o : Outcome A) : CurveState :=
  match o with
  | Returned _ s => s
  | Thrown _ s => s
  end.

Definition Method (A : Type) : Type := CurveState -> Outcome A.

Definition ret {A} (a : A) : Method A := fun s => Returned a s.

Definition bind {A B} (m : Method A) (k : A -> Method B) : Method B :=
  fun s =>
    match m s with
    | Returned a s' => k a s'
    | Thrown e s' => Thrown e s'
    end.

Definition throw {A} (e : Exception) : Method A := fun s => Thrown e s.

Definition this : Method CurveState := fun s => Returned s s.

Definition assign (f : CurveState -> CurveState) : Method unit :=
  fun s => Returned tt (f s).

Definition library {A} (r : BigNumber.Error + A) : Method A :=
  match r with
  | inl e => throw (BigNumberError e)
  | inr a => ret a
  end.

Definition when (b : bool) (m : Method unit) : Method unit :=
  if b then m else ret tt.

Declare Scope method_scope.
Delimit Scope method_scope with method.
Notation "x <- m ;; k" := (bind m (fun x => k))
  (at level 61, m at next level, right associativity) : method_scope.
Notation "m ;;; k" := (bind m (fun _ => k))
  (at level 61, right associativity) : method_scope.

Module BuyQuote.
Record t : Type := make
  { tokensReceived : BigNumber.t;
    fee : BigNumber.t;
    newPrice : BigNumber.t }.
End BuyQuote.

Module SellQuote.
Record t : Type := make
  { baseReceived : BigNumber.t;
    fee : BigNumber.t;
    newPrice : BigNumber.t }.
End SellQuote.

Module BuyResult.
Record t : Type := make
  { tokensReceived : BigNumber.t;
    fee : BigNumber.t;
    newPrice : BigNumber.t;
    currentSupply : BigNumber.t;
    poolBalance : BigNumber.t }.
End BuyResult.

Module SellResult.
Record t : Type := make
  { baseReceived : BigNumber.t;
    fee : BigNumber.t;
    newPrice : BigNumber.t;
    currentSupply : BigNumber.t;
    poolBalance : BigNumber.t }.
End SellResult.

Module BurnResult.
Record t : Type := make
  { burnAmount : BigNumber.t;
    newPoolBalance : BigNumber.t }.
End BurnResult.

(** Constructor options; an option that is not given is [JUndefined]. *)
Module Params.
Record t : Type := make
  { initialSupply : JsValue;
    reserveRatio : JsValue;
    initialPrice : JsValue;
    fee : JsValue;
    currentSupply : JsValue }.

Definition empty : t :=
  make JUndefined JUndefined JUndefined JUndefined JUndefined.
End Params.

Module BondingCurveModel.

Import BigNumber.
Local Open Scope method_scope.

Definition calculateInitialPoolBalance (self : CurveState) : BigNumber.t :=
  times (times (initialSupply self) (initialPrice self)) (reserveRatio self).

Definition constructor (params : Params.t) : CurveState :=
  let initialSupply :=
    toBigNumber (or_else (Params.initialSupply params) (JString "800000000")) in
  let reserveRatio :=
    toBigNumber (or_else (Params.reserveRatio params) (JString "0.2")) in
  let initialPrice :=
    toBigNumber (or_else (Params.initialPrice params) (JString "0.0000001")) in
  let fee := toBigNumber (or_else (Params.fee params) (JString "0.01")) in
  let currentSupply :=
    toBigNumber (or_else (Params.currentSupply params) (JBigNumber initialSupply)) in
  let self :=
    mkCurveState initialSupply reserveRatio initialPrice fee currentSupply
      NaN
      (LiquidityMilestones.make
         (Literal.parse "69000") (Literal.parse "100000") (Literal.parse "1000000"))
      (BurnPercentages.make (Literal.parse "0.1") (Literal.parse "0.05"))
      [] in
  with_poolBalance (calculateInitialPoolBalance self) self.

Definition getCurrentPrice : Method BigNumber.t :=
  self <- this ;;
  ret (div (poolBalance self) (times (currentSupply self) (reserveRatio self))).

Definition calculatenewSupply (newPoolBalance : BigNumber.t) : Method BigNumber.t :=
  self <- this ;;
  exponent <- library
    (pow (div newPoolBalance (poolBalance self)) (div ONE (reserveRatio self))) ;;
  ret (times (currentSupply self) exponent).

Definition calculateBuyTokens (baseAmount : JsValue) : Method BuyQuote.t :=
  self <- this ;;
  let baseAmountBN := toBigNumber baseAmount in
  let feeAmount := times baseAmountBN (fee self) in
  let baseAmountAfterFee := minus baseAmountBN feeAmount in
  let newPoolBalance := plus (poolBalance self) baseAmountAfterFee in
  newSupply <- calculatenewSupply newPoolBalance ;;
  let tokensToReceive := minus newSupply (currentSupply self) in
  ret (BuyQuote.make tokensToReceive feeAmount
         (div (poolBalance self)
            (times (currentSupply self) (reserveRatio self)))).

Definition calculatePoolBalance (supply : BigNumber.t) : Method BigNumber.t :=
  self <- this ;;
  factor <- library
    (pow (div supply (currentSupply self)) (reserveRatio self)) ;;
  ret (times (poolBalance self) factor).

Definition calculateSellTokens (tokenAmount : JsValue) : Method SellQuote.t :=
  self <- this ;;
  let tokenAmountBN := toBigNumber tokenAmount in
  if gt tokenAmountBN (currentSupply self) then throw InsufficientTokenBalance
  else
    let newSupply := minus (currentSupply self) tokenAmountBN in
    newPoolBalance <- calculatePoolBalance newSupply ;;
    let baseAmountBeforeFee := minus (poolBalance self) newPoolBalance in
    let feeAmount := times baseAmountBeforeFee (fee self) in
    let baseAmountAfterFee := minus baseAmountBeforeFee feeAmount in
    ret (SellQuote.make baseAmountAfterFee feeAmount
           (div newPoolBalance (times newSupply (reserveRatio self)))).

Definition burnLiquidity (percentage : BigNumber.t) : Method BurnResult.t :=
  self <- this ;;
  let burnAmount := times (poolBalance self) percentage in
  assign (with_poolBalance (minus (poolBalance self) burnAmount)) ;;;
  self' <- this ;;
  ret (BurnResult.make burnAmount (poolBalance self')).

(** History only: notes that the branch of a milestone is entered. *)
Definition enter (m : Milestone) : Method unit :=
  assign (fun s => with_fired (fired s ++ [m]) s).

Definition checkMilestones : Method unit :=
  self <- this ;;
  price <- getCurrentPrice ;;
  let marketCap := times (currentSupply self) price in
  when (gte marketCap (LiquidityMilestones.addDexLiquidity (liquidityMilestones self)))
    (enter AddDexLiquidity) ;;;
  when (gte marketCap (LiquidityMilestones.firstBurn (liquidityMilestones self)))
    (enter FirstBurn ;;;
     _ <- burnLiquidity (BurnPercentages.firstBurn (burnPercentages self)) ;;
     ret tt) ;;;
  when (gte marketCap (LiquidityMilestones.secondBurn (liquidityMilestones self)))
    (enter SecondBurn ;;;
     _ <- burnLiquidity (BurnPercentages.secondBurn (burnPercentages self)) ;;
     ret tt).

Definition executeBuy (baseAmount : JsValue) : Method BuyResult.t :=
  result <- calculateBuyTokens baseAmount ;;
  self <- this ;;
  assign (with_poolBalance
            (plus (poolBalance self)
               (minus (toBigNumber baseAmount) (BuyQuote.fee result)))) ;;;
  self <- this ;;
  assign (with_currentSupply
            (plus (currentSupply self) (BuyQuote.tokensReceived result))) ;;;
  checkMilestones ;;;
  price <- getCurrentPrice ;;
  self <- this ;;
  ret (BuyResult.make (BuyQuote.tokensReceived result) (BuyQuote.fee result)
         price (currentSupply self) (poolBalance self)).

Definition executeSell (tokenAmount : JsValue) : Method SellResult.t :=
  result <- calculateSellTokens tokenAmount ;;
  self <- this ;;
  assign (with_currentSupply
            (minus (currentSupply self) (toBigNumber tokenAmount))) ;;;
  self <- this ;;
  assign (with_poolBalance
            (minus (poolBalance self)
               (plus (SellQuote.baseReceived result) (SellQuote.fee result)))) ;;;
  price <- getCurrentPrice ;;
  self <- this ;;
  ret (SellResult.make (SellQuote.baseReceived result) (SellQuote.fee result)
         price (currentSupply self) (poolBalance self)).

Definition getMarketCap : Method BigNumber.t :=
  self <- this ;;
  price <- getCurrentPrice ;;
  ret (times (currentSupply self) price).

End BondingCurveModel.

(** ** Notions used in the statements *)

Import BigNumber BondingCurveModel.

(** The state in which [executeBuy] calls [checkMilestones]: both
    assignments applied to the instance the quote was computed on. *)
Definition afterBuy (baseAmount : JsValue) (result : BuyQuote.t)
    (s : CurveState) : CurveState :=
  let s1 :=
    with_poolBalance
      (plus (poolBalance s)
         (minus (toBigNumber baseAmount) (BuyQuote.fee result))) s in
  with_currentSupply
    (plus (currentSupply s1) (BuyQuote.tokensReceived result)) s1.

(** The state after both assignments of [executeSell]. *)
Definition afterSell (tokenAmount : JsValue) (result : SellQuote.t)
    (s : CurveState) : CurveState :=
  let s1 :=
    with_currentSupply
      (minus (currentSupply s) (toBigNumber tokenAmount)) s in
  with_poolBalance
    (minus (poolBalance s1)
       (plus (SellQuote.baseReceived result) (SellQuote.fee result))) s1.

(** The market cap that [checkMilestones] compares with the thresholds. *)
Definition marketCapOf (s : CurveState) : BigNumber.t :=
  times (currentSupply s)
    (div (poolBalance s) (times (currentSupply s) (reserveRatio s))).

Definition threshold (m : Milestone) (s : CurveState) : BigNumber.t :=
  match m with
  | AddDexLiquidity => LiquidityMilestones.addDexLiquidity (liquidityMilestones s)
  | FirstBurn => LiquidityMilestones.firstBurn (liquidityMilestones s)
  | SecondBurn => LiquidityMilestones.secondBurn (liquidityMilestones s)
  end.

Definition reached (m : Milestone) (s : CurveState) : bool :=
  gte (marketCapOf s) (threshold m s).

Definition burnt (b : bool) (percentage pool : BigNumber.t) : BigNumber.t :=
  if b then minus pool (times pool percentage) else pool.

(** Sequences of trades on one instance; a call that throws leaves the
    instance as it is at the throw. *)
Inductive Operation : Type :=
| Buy (amount : JsValue)
| Sell (amount : JsValue).

Definition perform (op : Operation) (s : CurveState) : CurveState :=
  match op with
  | Buy amount => stateOf (executeBuy amount s)
  | Sell amount => stateOf (executeSell amount s)
  end.

Definition performAll (ops : list Operation) (s : CurveState) : CurveState :=
  fold_left (fun s op => perform op s) ops s.



(** [executeSell] ends with a milestone evaluation of the mutated state. *)
Definition sellEvaluatesMilestones (tokenAmount : JsValue) (s : CurveState) : Prop :=
  forall r s', executeSell tokenAmount s = Returned r s' ->
  exists q, calculateSellTokens tokenAmount s = Returned q s /\
            checkMilestones (afterSell tokenAmount q s) = Returned tt s'.

Definition isFinite (x : BigNumber.t) : bool :=
  match x with Fin _ => true | _ => false end.

Definition num (z : Z) : JsValue := JNumber (ofZ z).

(** One unit in the last place kept by [div]. *)
Definition epsilon : Q := 1 # BigNumber.scale.

(** Example instances.  [new BondingCurveModel({initialSupply: '3',
    reserveRatio: '1', initialPrice: '1'})]: supply 3, pool 3. *)
Definition smallLaunch : CurveState :=
  constructor
    (Params.make (JString "3") (JString "1") (JString "1") JUndefined JUndefined).

(** [new BondingCurveModel({initialSupply: '10', reserveRatio: '1',
    initialPrice: '20000'})]: supply 10, pool 200000, market cap 200000. *)
Definition listedLaunch : CurveState :=
  constructor
    (Params.make (JString "10") (JString "1") (JString "20000")
       JUndefined JUndefined).

(** [new BondingCurveModel({initialPrice: '0.001'})]: the default supply
    and reserve ratio, pool 160000, market cap 800000. *)
Definition pricedLaunch : Params.t :=
  Params.make JUndefined JUndefined (JString "0.001") JUndefined JUndefined.

(** Amount validation, as a quote operation would have it: an amount
    that is zero or negative never yields a quote. *)
Definition rejectsNonPositive {A : Type} (quote : JsValue -> Method A)
    (s : CurveState) : Prop :=
  forall amount q s',
    gte ZERO (toBigNumber amount) = true -> quote amount s <> Returned q s'.



(** [new BondingCurveModel({initialSupply: '1', reserveRatio: '1',
    initialPrice: '1', fee: '0'})]: supply 1, pool 1, no fee. *)
Definition freeLaunch : CurveState :=
  constructor
    (Params.make (JString "1") (JString "1") (JString "1") (JString "0")
       JUndefined).

(** Buying and then selling exactly the tokens bought pays back no more
    than was paid in. *)
Definition roundTripCreatesNoValue (amount : JsValue) (s : CurveState) : Prop :=
  forall rb s1 rs s2 a n,
    executeBuy amount s = Returned rb s1 ->
    executeSell (JBigNumber (BuyResult.tokensReceived rb)) s1 = Returned rs s2 ->
    toBigNumber amount = Fin a ->
    SellResult.baseReceived rs = Fin n ->
    n <= a.

(** The fields that no method assigns. *)
Definition constants (s : CurveState) :=
  (initialSupply s, reserveRatio s, initialPrice s, fee s,
   liquidityMilestones s, burnPercentages s).



(** ** The literals of the source *)

Example parse_default_price :
  Literal.parse "0.0000001" = BigNumber.Fin (1 # 10000000).
Proof. reflexivity. Qed.

Example parse_exponent : Literal.parse "-12.5e-1" = BigNumber.Fin (- 5 # 4).
Proof. reflexivity. Qed.

Example parse_text : Literal.parse "abc" = BigNumber.NaN.
Proof. reflexivity. Qed.

(** ** Facts about the decimal library *)

Module BigNumberFacts.

Import BigNumber.

Lemma round_down_eq (q : Q) :
  round_down q == (Z.quot (Qnum q * Z.pos scale) (Z.pos (Qden q)) # scale).
Proof. unfold round_down. apply Qred_correct. Qed.

Lemma round_down_le (q : Q) : 0 <= q -> round_down q <= q.
Proof.
  intros H. rewrite round_down_eq. destruct q as [n d].
  unfold Qle in *. cbn [Qnum Qden] in *.
  generalize scale. intros sc.
  rewrite Z.quot_div_nonneg by lia.
  rewrite Z.mul_comm. apply Z.mul_div_le. lia.
Qed.

Lemma round_down_nonneg (q : Q) : 0 <= q -> 0 <= round_down q.
Proof.
  intros H. rewrite round_down_eq. destruct q as [n d].
  unfold Qle in *. cbn [Qnum Qden] in *.
  generalize scale. intros sc.
  rewrite Z.quot_div_nonneg by lia.
  assert (0 <= n * Z.pos sc / Z.pos d)%Z by (apply Z.div_pos; lia).
  lia.
Qed.

Lemma round_down_gt (q : Q) : 0 <= q -> q < round_down q + epsilon.
Proof.
  intros H. rewrite round_down_eq. destruct q as [n d].
  unfold epsilon, Qlt, Qle, Qplus in *. cbn [Qnum Qden] in *.
  generalize scale. intros sc.
  rewrite Z.quot_div_nonneg by lia.
  pose proof (Z.mul_succ_div_gt (n * Z.pos sc) (Z.pos d) ltac:(lia)) as G.
  set (k := (n * Z.pos sc / Z.pos d)%Z) in *. clearbody k.
  rewrite Pos2Z.inj_mul. nia.
Qed.

Lemma round_down_ge_one (q : Q) : 1 <= q -> 1 <= round_down q.
Proof.
  intros H. rewrite round_down_eq. destruct q as [n d].
  unfold Qle in *. cbn [Qnum Qden] in *.
  generalize scale. intros sc.
  rewrite Z.quot_div_nonneg by nia.
  assert (Z.pos sc <= n * Z.pos sc / Z.pos d)%Z.
  { apply Z.div_le_lower_bound; [lia | nia]. }
  lia.
Qed.

Lemma isZeroQ_true (q : Q) : isZeroQ q = true <-> q == 0.
Proof. apply Qeq_bool_iff. Qed.

Lemma isZeroQ_false (q : Q) : isZeroQ q = false <-> ~ q == 0.
Proof.
  unfold isZeroQ. split.
  - intros H E. apply Qeq_bool_iff in E. congruence.
  - intros H. destruct (Qeq_bool q 0) eqn:E; [|reflexivity].
    apply Qeq_bool_iff in E. contradiction.
Qed.

Lemma isNegativeQ_false (q : Q) : isNegativeQ q = false <-> 0 <= q.
Proof.
  unfold isNegativeQ. rewrite negb_false_iff. apply Qle_bool_iff.
Qed.

Lemma isNegativeQ_true (q : Q) : isNegativeQ q = true <-> q < 0.
Proof.
  unfold isNegativeQ. rewrite negb_true_iff. split.
  - intros H. apply Qnot_le_lt. intros E. apply Qle_bool_iff in E. congruence.
  - intros H. destruct (Qle_bool 0 q) eqn:E; [|reflexivity].
    apply Qle_bool_iff in E. apply Qle_not_lt in E. contradiction.
Qed.

(** [gt] on finite operands is the strict order of their values. *)
Lemma gt_Fin (p q : Q) : gt (Fin p) (Fin q) = true <-> q < p.
Proof.
  unfold gt, comparedTo. rewrite Qgt_alt.
  destruct (p ?= q); split; congruence.
Qed.

Lemma gte_Fin (p q : Q) : gte (Fin p) (Fin q) = true <-> q <= p.
Proof.
  unfold gte, comparedTo. rewrite Qle_alt, <- (Qcompare_antisym q p).
  destruct (q ?= p); cbn; split; intros H; try reflexivity;
    try discriminate; try (exfalso; apply H; reflexivity).
Qed.

Lemma pow_valid (x n : BigNumber.t) :
  exponentIsValid n = true -> exists y, pow x n = inr y.
Proof.
  intros H. unfold pow. rewrite H. cbn [negb].
  destruct (isSpecialBase x || isSpecialExponent n); [eexists; reflexivity|].
  destruct x, n; eexists; reflexivity.
Qed.

Lemma pow_invalid (x n : BigNumber.t) :
  exponentIsValid n = false -> pow x n = inl ExponentNotInteger.
Proof. intros H. unfold pow. rewrite H. reflexivity. Qed.


Lemma div_Fin (p q : Q) : ~ q == 0 -> div (Fin p) (Fin q) = Fin (round_down (p / q)).
Proof. intros H. unfold div. apply isZeroQ_false in H. rewrite H. reflexivity. Qed.



Lemma minus_Fin (p q : Q) : minus (Fin p) (Fin q) = Fin (Qred (p + Qred (- q))).
Proof. reflexivity. Qed.








Lemma times_zero_nonfinite (y : BigNumber.t) :
  isFinite y = false -> times ZERO y = NaN.
Proof. destruct y; [reflexivity|reflexivity|discriminate]. Qed.

Lemma isIntegerQ_one (e : Q) : e == 1 -> isIntegerQ e = true.
Proof. intros H. unfold isIntegerQ. rewrite (Qred_complete e 1 H). reflexivity. Qed.

Lemma pow_one (b e : Q) :
  e == 1 -> exists v, pow (Fin b) (Fin e) = inr (Fin v) /\ v == b.
Proof.
  intros He. unfold pow. cbn [exponentIsValid].
  rewrite (isIntegerQ_one e He). cbn [negb].
  assert (He0 : isZeroQ e = false) by (apply isZeroQ_false; lra).
  assert (Hen : isNegativeQ e = false) by (apply isNegativeQ_false; lra).
  assert (Hodd : isOddQ e = true).
  { unfold isOddQ. rewrite (Qred_complete e 1 He). reflexivity. }
  cbn [isSpecialBase isSpecialExponent]. rewrite He0, orb_false_r.
  destruct (isZeroQ b) eqn:Hz.
  - cbn [orb]. unfold mathPow. rewrite He0, Hz, Hen.
    eexists. split; [reflexivity|]. apply isZeroQ_true in Hz. rewrite Hz. reflexivity.
  - cbn [orb]. destruct (Qeq_bool (Qabs b) 1) eqn:Hab.
    + unfold mathPow. rewrite He0, Hz, Hodd, andb_true_r.
      apply Qeq_bool_iff in Hab.
      destruct (isNegativeQ b) eqn:Hn.
      * eexists. split; [reflexivity|]. apply isNegativeQ_true in Hn.
        rewrite Qabs_neg in Hab by lra. unfold ofZ, inject_Z. lra.
      * eexists. split; [reflexivity|]. apply isNegativeQ_false in Hn.
        rewrite Qabs_pos in Hab by lra. unfold ONE, ofZ, inject_Z. lra.
    + rewrite Hen. eexists. split; [reflexivity|].
      rewrite Qred_correct, (Qred_complete e 1 He). reflexivity.
Qed.

Lemma div_one_unit (R : Q) :
  R == 1 -> exists e, div ONE (Fin R) = Fin e /\ e == 1.
Proof.
  intros HR. unfold ONE, ofZ. rewrite div_Fin by lra.
  eexists. split; [reflexivity|].
  assert (E : inject_Z 1 / R == 1).
  { rewrite HR. reflexivity. }
  apply Qle_antisym.
  - apply Qle_trans with (inject_Z 1 / R); [apply round_down_le|]; lra.
  - apply round_down_ge_one. lra.
Qed.

End BigNumberFacts.

(** ** Properties of the class *)

Import BigNumberFacts.

Lemma calculatenewSupply_state (p : BigNumber.t) (s : CurveState) :
  stateOf (calculatenewSupply p s) = s.
Proof.
  unfold calculatenewSupply, bind, this, library.
  destruct (pow _ _); reflexivity.
Qed.

Lemma calculatePoolBalance_state (p : BigNumber.t) (s : CurveState) :
  stateOf (calculatePoolBalance p s) = s.
Proof.
  unfold calculatePoolBalance, bind, this, library.
  destruct (pow _ _); reflexivity.
Qed.

Lemma calculateBuyTokens_state (amount : JsValue) (s : CurveState) :
  stateOf (calculateBuyTokens amount s) = s.
Proof.
  unfold calculateBuyTokens, bind, this.
  pose proof (calculatenewSupply_state
    (plus (poolBalance s)
       (minus (toBigNumber amount) (times (toBigNumber amount) (fee s)))) s) as H.
  destruct (calculatenewSupply _ s); cbn in *; congruence.
Qed.

Lemma calculateSellTokens_state (amount : JsValue) (s : CurveState) :
  stateOf (calculateSellTokens amount s) = s.
Proof.
  unfold calculateSellTokens, bind, this.
  destruct (gt _ _); [reflexivity|].
  pose proof (calculatePoolBalance_state
    (minus (currentSupply s) (toBigNumber amount)) s) as H.
  destruct (calculatePoolBalance _ s); cbn in *; congruence.
Qed.

Lemma calculateBuyTokens_returned amount s q s' :
  calculateBuyTokens amount s = Returned q s' -> s' = s.
Proof.
  intros H. pose proof (calculateBuyTokens_state amount s) as E.
  rewrite H in E. exact E.
Qed.

Lemma calculateSellTokens_returned amount s q s' :
  calculateSellTokens amount s = Returned q s' -> s' = s.
Proof.
  intros H. pose proof (calculateSellTokens_state amount s) as E.
  rewrite H in E. exact E.
Qed.

(** C8: [calculateBuyTokens] and [calculateSellTokens] (the quote
    operations) leave every field of the instance as it was, whether they
    return a quote or throw. *)
Theorem quotes_do_not_mutate (amount : JsValue) (s : CurveState) :
  stateOf (calculateBuyTokens amount s) = s /\
  stateOf (calculateSellTokens amount s) = s.
Proof.
  split; [apply calculateBuyTokens_state | apply calculateSellTokens_state].
Qed.

(** C3: when the amount is strictly greater than [currentSupply], both
    [calculateSellTokens] and [executeSell] throw the insufficient-balance
    error, and the instance left behind is the one they were called on. *)
Theorem oversell_is_rejected (amount : JsValue) (s : CurveState) :
  gt (toBigNumber amount) (currentSupply s) = true ->
  calculateSellTokens amount s = Thrown InsufficientTokenBalance s /\
  executeSell amount s = Thrown InsufficientTokenBalance s.
Proof.
  intros H.
  assert (E : calculateSellTokens amount s = Thrown InsufficientTokenBalance s).
  { unfold calculateSellTokens, bind, this, throw. rewrite H. reflexivity. }
  split; [exact E|].
  unfold executeSell, bind. rewrite E. reflexivity.
Qed.

Lemma oversell_is_rejected_witness :
  calculateSellTokens (num 800000001) (constructor Params.empty)
    = Thrown InsufficientTokenBalance (constructor Params.empty) /\
  executeSell (num 800000001) (constructor Params.empty)
    = Thrown InsufficientTokenBalance (constructor Params.empty).
Proof. apply oversell_is_rejected. vm_compute. reflexivity. Defined.

(** C5: a buy quote carries the price of the instance as it is before
    the trade, [poolBalance / (currentSupply * reserveRatio)], while a sell
    quote carries the price computed from the supply and pool that the
    sale would leave. *)
Theorem quoted_prices_are_asymmetric (amount : JsValue) (s : CurveState) :
  (forall q s', calculateBuyTokens amount s = Returned q s' ->
     BuyQuote.newPrice q
       = div (poolBalance s) (times (currentSupply s) (reserveRatio s))) /\
  (forall q s', calculateSellTokens amount s = Returned q s' ->
     let targetSupply := minus (currentSupply s) (toBigNumber amount) in
     exists targetPool,
       calculatePoolBalance targetSupply s = Returned targetPool s /\
       SellQuote.newPrice q
         = div targetPool (times targetSupply (reserveRatio s))).
Proof.
  split.
  - intros q s' H. unfold calculateBuyTokens, bind, this in H.
    destruct (calculatenewSupply _ s) as [n s1|e s1]; [|discriminate].
    unfold ret in H. injection H as <- _. reflexivity.
  - intros q s' H targetSupply.
    unfold calculateSellTokens, bind, this in H.
    destruct (gt _ _); [discriminate|].
    fold targetSupply in H.
    pose proof (calculatePoolBalance_state targetSupply s) as St.
    destruct (calculatePoolBalance targetSupply s) as [tp s1|e s1];
      [|discriminate].
    cbn in St. subst s1. exists tp. split; [reflexivity|].
    unfold ret in H. injection H as <- _. reflexivity.
Qed.

Lemma quoted_prices_are_asymmetric_witness :
  (exists q, calculateBuyTokens (num 1) smallLaunch = Returned q smallLaunch /\
             BuyQuote.newPrice q = Fin 1) /\
  (exists q, calculateSellTokens (num 1) smallLaunch = Returned q smallLaunch /\
             SellQuote.newPrice q
               = Fin (999999999999999999 # 1000000000000000000)).
Proof.
  destruct (quoted_prices_are_asymmetric (num 1) smallLaunch) as [Hb Hs].
  split.
  - destruct (calculateBuyTokens (num 1) smallLaunch) as [q s'|e s'] eqn:E;
      [|vm_compute in E; discriminate].
    pose proof (calculateBuyTokens_returned _ _ _ _ E) as ->.
    exists q. split; [reflexivity|].
    rewrite (Hb q smallLaunch eq_refl). vm_compute. reflexivity.
  - destruct (calculateSellTokens (num 1) smallLaunch) as [q s'|e s'] eqn:E;
      [|vm_compute in E; discriminate].
    pose proof (calculateSellTokens_returned _ _ _ _ E) as ->.
    exists q. split; [reflexivity|].
    destruct (Hs q smallLaunch eq_refl) as [tp [Hp ->]].
    vm_compute in Hp. injection Hp as <-. vm_compute. reflexivity.
Defined.

Lemma getCurrentPrice_eq (s : CurveState) :
  getCurrentPrice s
    = Returned
        (div (poolBalance s) (times (currentSupply s) (reserveRatio s))) s.
Proof. reflexivity. Qed.

(** What one evaluation does, whatever [fired] already lists. *)
Lemma checkMilestones_eq (s : CurveState) :
  checkMilestones s
    = Returned tt
        (with_fired
           (fired s ++
            filter (fun m => reached m s) [AddDexLiquidity; FirstBurn; SecondBurn])
           (with_poolBalance
              (burnt (reached SecondBurn s)
                 (BurnPercentages.secondBurn (burnPercentages s))
                 (burnt (reached FirstBurn s)
                    (BurnPercentages.firstBurn (burnPercentages s))
                    (poolBalance s)))
              s)).
Proof.
  destruct s as [iS rR iP f cS pB [m0 m1 m2] [b1 b2] fd].
  cbv - [gte times div minus app].
  destruct (gte _ m0); destruct (gte _ m1); destruct (gte _ m2);
    cbn [app]; rewrite <- ?app_assoc, ?app_nil_r; reflexivity.
Qed.

Lemma executeBuy_returned amount s r s' :
  executeBuy amount s = Returned r s' ->
  exists q, calculateBuyTokens amount s = Returned q s /\
            checkMilestones (afterBuy amount q s) = Returned tt s'.
Proof.
  intros H. unfold executeBuy, bind in H.
  destruct (calculateBuyTokens amount s) as [q s1|e s1] eqn:E; [|discriminate].
  pose proof (calculateBuyTokens_returned _ _ _ _ E) as ->.
  exists q. split; [reflexivity|].
  unfold this, assign in H. fold (afterBuy amount q s) in H.
  rewrite checkMilestones_eq in *. cbn in H. injection H as _ <-. reflexivity.
Qed.

Lemma executeSell_returned amount s r s' :
  executeSell amount s = Returned r s' ->
  exists q, calculateSellTokens amount s = Returned q s /\
            s' = afterSell amount q s.
Proof.
  intros H. unfold executeSell, bind in H.
  destruct (calculateSellTokens amount s) as [q s1|e s1] eqn:E; [|discriminate].
  pose proof (calculateSellTokens_returned _ _ _ _ E) as ->.
  exists q. split; [reflexivity|].
  cbn in H. injection H as _ <-. reflexivity.
Qed.

(** C2, as the code has it: [executeBuy] evaluates the milestones on the
    state left by its two assignments; [executeSell] returns the state
    left by its two assignments as it is, with no milestone evaluation
    (no milestone is entered and no burn is applied). *)
Theorem milestones_evaluated_after_buy_only (amount : JsValue) (s : CurveState) :
  (forall r s', executeBuy amount s = Returned r s' ->
     exists q, calculateBuyTokens amount s = Returned q s /\
               checkMilestones (afterBuy amount q s) = Returned tt s') /\
  (forall r s', executeSell amount s = Returned r s' ->
     exists q, calculateSellTokens amount s = Returned q s /\
               s' = afterSell amount q s /\
               fired s' = fired s /\
               poolBalance s'
                 = minus (poolBalance s)
                     (plus (SellQuote.baseReceived q) (SellQuote.fee q))).
Proof.
  split.
  - intros r s' H. exact (executeBuy_returned _ _ _ _ H).
  - intros r s' H. destruct (executeSell_returned _ _ _ _ H) as [q [E ->]].
    exists q. repeat split; assumption || reflexivity.
Qed.

Lemma milestones_evaluated_after_buy_only_witness :
  (exists q, calculateBuyTokens (num 100) (constructor pricedLaunch)
               = Returned q (constructor pricedLaunch) /\
             fired (stateOf (checkMilestones
                      (afterBuy (num 100) q (constructor pricedLaunch))))
               = [AddDexLiquidity; FirstBurn]) /\
  (exists q, calculateSellTokens (num 5) listedLaunch = Returned q listedLaunch /\
             stateOf (executeSell (num 5) listedLaunch)
               = afterSell (num 5) q listedLaunch).
Proof.
  destruct (milestones_evaluated_after_buy_only (num 100) (constructor pricedLaunch))
    as [Hb _].
  destruct (milestones_evaluated_after_buy_only (num 5) listedLaunch)
    as [_ Hs].
  split.
  - destruct (executeBuy (num 100) (constructor pricedLaunch)) as [r s'|e s'] eqn:E;
      [|vm_compute in E; discriminate].
    destruct (Hb r s' eq_refl) as [q [Hq Hc]].
    exists q. split; [exact Hq|]. rewrite Hc. cbn [stateOf].
    vm_compute in E. injection E as _ <-. reflexivity.
  - destruct (executeSell (num 5) listedLaunch) as [r s'|e s'] eqn:E;
      [|vm_compute in E; discriminate].
    destruct (Hs r s' eq_refl) as [q [Hq [Hs' _]]].
    exists q. split; [exact Hq|]. exact Hs'.
Defined.

(** C2, counterexample: selling 5 of the 10 tokens of [listedLaunch]
    leaves a market cap of 100000, which meets the first-burn threshold,
    and yet the state returned is not the one a milestone evaluation
    gives: no burn was applied. *)
Lemma sell_skips_milestones :
  ~ sellEvaluatesMilestones (num 5) listedLaunch.
Proof.
  intros H.
  destruct (H (SellResult.make (Fin 99000) (Fin 1000) (Fin 20000) (Fin 5) (Fin 100000))
              (with_poolBalance (Fin 100000) (with_currentSupply (Fin 5) listedLaunch))
              ltac:(vm_compute; reflexivity)) as [q [Hq Hc]].
  vm_compute in Hq. injection Hq as <-.
  vm_compute in Hc. discriminate Hc.
Qed.




Example two_buys_burn_twice :
  let s1 := perform (Buy (num 100)) (constructor pricedLaunch) in
  let s2 := perform (Buy (num 100)) s1 in
  poolBalance s1 = Literal.parse "144089.1" /\
  poolBalance s2 = Literal.parse "129769.29" /\
  fired s2 = [AddDexLiquidity; FirstBurn; AddDexLiquidity; FirstBurn].
Proof. vm_compute. repeat split. Qed.

(** C4, as the code has it: the quote operations do not validate the
    sign of the amount.  For an amount that is zero or negative,
    [calculateBuyTokens] returns a quote whenever [1 / reserveRatio] is an
    integer, and [calculateSellTokens] returns a quote whenever
    [currentSupply] is not negative and [reserveRatio] is an integer. *)
Theorem nonpositive_amounts_are_quoted (amount : JsValue) (s : CurveState) (a : Q) :
  toBigNumber amount = Fin a ->
  a <= 0 ->
  (exponentIsValid (div ONE (reserveRatio s)) = true ->
   exists q, calculateBuyTokens amount s = Returned q s /\
             BuyQuote.fee q = times (Fin a) (fee s)) /\
  (forall c, currentSupply s = Fin c -> 0 <= c ->
   exponentIsValid (reserveRatio s) = true ->
   exists q, calculateSellTokens amount s = Returned q s).
Proof.
  intros Ha Hle. split.
  - intros Hv.
    unfold calculateBuyTokens, calculatenewSupply, bind, this, library.
    rewrite Ha.
    destruct (pow_valid
      (div (plus (poolBalance s) (minus (Fin a) (times (Fin a) (fee s))))
         (poolBalance s))
      _ Hv) as [y ->].
    eexists. split; reflexivity.
  - intros c Hc Hpos Hv.
    unfold calculateSellTokens, calculatePoolBalance, bind, this, library.
    rewrite Ha, Hc.
    assert (G : gt (Fin a) (Fin c) = false).
    { destruct (gt (Fin a) (Fin c)) eqn:E; [|reflexivity].
      apply BigNumberFacts.gt_Fin in E. lra. }
    rewrite G. unfold bind.
    destruct (pow_valid (div (minus (Fin c) (Fin a)) (currentSupply s)) _ Hv)
      as [y ->].
    eexists. reflexivity.
Qed.

Lemma nonpositive_amounts_are_quoted_witness :
  (exists q, calculateBuyTokens (num (-1)) smallLaunch = Returned q smallLaunch /\
             BuyQuote.fee q = Fin (- 1 # 100)) /\
  (exists q, calculateSellTokens (num (-1)) smallLaunch = Returned q smallLaunch).
Proof.
  destruct (nonpositive_amounts_are_quoted (num (-1)) smallLaunch (-1)
              eq_refl ltac:(discriminate)) as [Hb Hs].
  split.
  - destruct (Hb eq_refl) as [q [Hq Hf]]. exists q. split; [exact Hq|].
    rewrite Hf. reflexivity.
  - exact (Hs 3 eq_refl ltac:(discriminate) eq_refl).
Defined.

(** C4, counterexample: with the default options a buy quote for the
    amount 0 is returned (no tokens, no fee); on [smallLaunch] a sell quote
    for the amount 0 is returned as well. *)
Lemma zero_amount_is_quoted :
  ~ rejectsNonPositive calculateBuyTokens (constructor Params.empty) /\
  ~ rejectsNonPositive calculateSellTokens smallLaunch.
Proof.
  split; intros H.
  - apply (H (num 0)
             (BuyQuote.make (Fin 0) (Fin 0) (Fin (1 # 10000000)))
             (constructor Params.empty)); reflexivity.
  - apply (H (num 0)
             (SellQuote.make (Fin 0) (Fin 0) (Fin 1))
             smallLaunch); reflexivity.
Qed.










Lemma executeBuy_eq (amount : JsValue) (s : CurveState) (q : BuyQuote.t) :
  calculateBuyTokens amount s = Returned q s ->
  exists price,
    executeBuy amount s
      = Returned
          (BuyResult.make (BuyQuote.tokensReceived q) (BuyQuote.fee q) price
             (currentSupply (stateOf (checkMilestones (afterBuy amount q s))))
             (poolBalance (stateOf (checkMilestones (afterBuy amount q s)))))
          (stateOf (checkMilestones (afterBuy amount q s))).
Proof.
  intros H. unfold executeBuy, bind. rewrite H.
  unfold this, assign. cbv beta iota. fold (afterBuy amount q s).
  rewrite checkMilestones_eq. cbv beta iota. cbn [stateOf].
  rewrite getCurrentPrice_eq. eexists. reflexivity.
Qed.

Lemma executeSell_eq (amount : JsValue) (s : CurveState) (q : SellQuote.t) :
  calculateSellTokens amount s = Returned q s ->
  exists price,
    executeSell amount s
      = Returned
          (SellResult.make (SellQuote.baseReceived q) (SellQuote.fee q) price
             (currentSupply (afterSell amount q s))
             (poolBalance (afterSell amount q s)))
          (afterSell amount q s).
Proof.
  intros H. unfold executeSell, bind. rewrite H.
  unfold this, assign. cbv beta iota. fold (afterSell amount q s).
  rewrite getCurrentPrice_eq. eexists. reflexivity.
Qed.

Lemma burnt_bounds (b : bool) (pct p : Q) :
  0 <= pct -> pct <= 1 -> 0 <= p ->
  exists p', burnt b (Fin pct) (Fin p) = Fin p' /\ 0 <= p' /\ p' <= p.
Proof.
  intros H0 H1 Hp. destruct b; cbn [burnt].
  - cbn [minus plus negated times fin]. unfold fin. eexists.
    split; [reflexivity|]. rewrite !Qred_correct. split; nra.
  - exists p. split; [reflexivity|]. split; lra.
Qed.

(** The arithmetic of a buy followed by the sale of the tokens bought,
    at reserve ratio one: [t] is the truncated pool ratio of the buy,
    [u] the truncated supply ratio of the sale. *)
Lemma round_trip_bound (P a F P1 P2 t u g : Q) :
  0 < P -> 0 < a -> 0 <= F -> F < 1 ->
  P1 == P + (a - a * F) ->
  1 <= t -> t <= P1 / P ->
  0 <= u -> / t < u + epsilon ->
  0 <= P2 -> P2 <= P1 ->
  g == P2 - P2 * u ->
  g - g * F <= (1 - F) * ((1 - F) * a + P1 * epsilon).
Proof.
  intros HP Ha HF0 HF1 HP1 Ht1 Ht Hu0 Hu HP20 HP2 Hg.
  assert (Hi : t * / t == 1) by (apply Qmult_inv_r; lra).
  assert (Hipos : 0 < / t) by (apply Qinv_lt_0_compat; lra).
  assert (HtP : t * P <= P1).
  { apply (Qmult_le_r _ _ (/ P)); [apply Qinv_lt_0_compat; exact HP|].
    rewrite <- Qmult_assoc, Qmult_inv_r by lra. rewrite Qmult_1_r. exact Ht. }
  set (i := / t) in *.
  assert (Hi1 : i <= 1) by nra.
  assert (HiP : P <= i * P1).
  { assert (i * (t * P) <= i * P1) by (apply Qmult_le_l; assumption).
    assert (i * (t * P) == P) by (rewrite Qmult_assoc, (Qmult_comm i t), Hi; ring).
    lra. }
  assert (Heps : 0 < epsilon) by reflexivity.
  assert (Hg1 : g <= (1 - F) * a + P1 * epsilon).
  { destruct (Qlt_le_dec 1 u) as [Hu1|Hu1].
    - assert (g <= 0) by nra. nra.
    - assert (g <= P1 - P1 * u) by nra.
      assert (P1 * i <= P1 * u + P1 * epsilon) by nra.
      nra. }
  nra.
Qed.

Lemma buy_quote_unit_ratio (amount : JsValue) (s : CurveState) (a P S R F : Q) :
  toBigNumber amount = Fin a ->
  poolBalance s = Fin P -> currentSupply s = Fin S ->
  reserveRatio s = Fin R -> fee s = Fin F ->
  0 < P -> R == 1 ->
  exists v price,
    v == round_down (Qred (P + Qred (a + Qred (- Qred (a * F)))) / P) /\
    calculateBuyTokens amount s
      = Returned
          (BuyQuote.make (Fin (Qred (Qred (S * v) + Qred (- S))))
             (Fin (Qred (a * F))) price)
          s.
Proof.
  intros Ha HP HS HR HF Ppos Runit.
  unfold calculateBuyTokens, calculatenewSupply, bind, this, library.
  cbv beta iota. rewrite ?Ha, ?HP, ?HS, ?HR, ?HF.
  destruct (div_one_unit R Runit) as [e [-> He]].
  cbn [times minus plus negated fin]. unfold fin.
  rewrite (div_Fin _ P) by lra.
  match goal with |- context [pow (Fin ?b) (Fin e)] =>
    destruct (pow_one b e He) as [v [-> Hv]] end.
  exists v. eexists. split; [exact Hv|]. reflexivity.
Qed.

Lemma sell_quote_unit_ratio (amount : JsValue) (s : CurveState) (k P S R F : Q) :
  toBigNumber amount = Fin k ->
  poolBalance s = Fin P -> currentSupply s = Fin S ->
  reserveRatio s = Fin R -> fee s = Fin F ->
  0 < S -> k <= S -> R == 1 ->
  exists w g price,
    w == round_down (Qred (S + Qred (- k)) / S) /\
    g == P - P * w /\
    calculateSellTokens amount s
      = Returned
          (SellQuote.make (Fin (Qred (g + Qred (- Qred (g * F)))))
             (Fin (Qred (g * F))) price)
          s.
Proof.
  intros Ha HP HS HR HF Spos Hk Runit.
  unfold calculateSellTokens, calculatePoolBalance, bind, this, library.
  cbv beta iota. rewrite ?Ha, ?HP, ?HS, ?HR, ?HF.
  assert (G : gt (Fin k) (Fin S) = false).
  { destruct (gt (Fin k) (Fin S)) eqn:E; [|reflexivity].
    apply gt_Fin in E. lra. }
  rewrite G. cbv beta iota. rewrite ?HP, ?HS, ?HR, ?HF.
  rewrite minus_Fin. rewrite (div_Fin _ S) by lra.
  match goal with |- context [pow (Fin ?b) (Fin R)] =>
    destruct (pow_one b R Runit) as [w [-> Hw]] end.
  unfold ret. cbv beta iota.
  cbn [times minus plus negated fin]. unfold fin.
  exists w. eexists. eexists. split; [exact Hw|]. split; [|reflexivity].
  rewrite !Qred_correct. ring.
Qed.

(** C6, as the code has it: with reserve ratio one (the only ratio in
    (0, 1] for which [executeSell] does not throw), a fee rate in [0, 1)
    and burn fractions in [0, 1], a buy of a positive amount followed by
    the sale of exactly the tokens received returns, and what the sale pays
    is at most [(1 - fee) * ((1 - fee) * amount + pool' * epsilon)], where
    [pool'] is the pool after the buy and [epsilon] is one unit of the 18th
    decimal place; in particular it is at most
    [amount + (poolBalance + amount) * epsilon]. *)
Theorem round_trip_gain_is_bounded
    (amount : JsValue) (s : CurveState) (a P S R F b1 b2 : Q) :
  toBigNumber amount = Fin a ->
  poolBalance s = Fin P -> currentSupply s = Fin S ->
  reserveRatio s = Fin R -> fee s = Fin F ->
  burnPercentages s = BurnPercentages.make (Fin b1) (Fin b2) ->
  0 < P -> 0 < S -> R == 1 -> 0 <= F -> F < 1 -> 0 < a ->
  0 <= b1 -> b1 <= 1 -> 0 <= b2 -> b2 <= 1 ->
  exists rb s1 rs s2 n,
    executeBuy amount s = Returned rb s1 /\
    executeSell (JBigNumber (BuyResult.tokensReceived rb)) s1 = Returned rs s2 /\
    SellResult.baseReceived rs = Fin n /\
    n <= (1 - F) * ((1 - F) * a + (P + (1 - F) * a) * epsilon) /\
    n <= a + (P + a) * epsilon.
Proof.
  intros Ha HP HS HR HF Hb Ppos Spos Runit F0 F1 apos B10 B11 B20 B21.
  destruct (buy_quote_unit_ratio amount s a P S R F Ha HP HS HR HF Ppos Runit)
    as [v [price [Hv Hq]]].
  set (P1 := Qred (P + Qred (a + Qred (- Qred (a * F))))) in *.
  set (tk := Qred (Qred (S * v) + Qred (- S))) in *.
  assert (HP1 : P1 == P + (a - a * F)).
  { unfold P1. rewrite !Qred_correct. ring. }
  assert (Hq1 : 1 <= P1 / P).
  { apply Qle_shift_div_l; [exact Ppos|]. nra. }
  assert (Hv1 : 1 <= v) by (rewrite Hv; apply round_down_ge_one; exact Hq1).
  assert (Hvle : v <= P1 / P) by (rewrite Hv; apply round_down_le; lra).
  assert (Htk : tk == S * v - S).
  { unfold tk. rewrite !Qred_correct. ring. }
  destruct (executeBuy_eq amount s _ Hq) as [bprice Hbuy].
  rewrite checkMilestones_eq in Hbuy. cbn [stateOf] in Hbuy.
  cbn [BuyQuote.tokensReceived BuyQuote.fee] in Hbuy.
  match type of Hbuy with _ = Returned ?res ?st =>
    set (s1 := st) in *; exists res, s1 end.
  assert (Hpool : exists P2, poolBalance s1 = Fin P2 /\ 0 <= P2 /\ P2 <= P1).
  { unfold s1. 
    cbn [poolBalance with_fired with_poolBalance with_currentSupply afterBuy
         burnPercentages BuyQuote.fee BuyQuote.tokensReceived].
    rewrite Hb, HP, Ha.
    cbn [BurnPercentages.firstBurn BurnPercentages.secondBurn].
    change (plus (Fin P) (minus (Fin a) (Fin (Qred (a * F))))) with (Fin P1).
    destruct (burnt_bounds (reached FirstBurn (afterBuy amount
                 (BuyQuote.make (Fin tk) (Fin (Qred (a * F))) price) s)) b1 P1 B10 B11
                ltac:(nra)) as [p' [-> [Hp0 Hp1]]].
    destruct (burnt_bounds (reached SecondBurn (afterBuy amount
                 (BuyQuote.make (Fin tk) (Fin (Qred (a * F))) price) s)) b2 p' B20 B21
                Hp0) as [p'' [-> [Hq0 Hq1']]].
    exists p''. split; [reflexivity|]. split; lra. }
  destruct Hpool as [P2 [HP2 [HP20 HP21]]].
  assert (Hsup : currentSupply s1 = Fin (Qred (S + tk))).
  { unfold s1.
    cbn [currentSupply poolBalance with_fired with_poolBalance with_currentSupply
         afterBuy BuyQuote.fee BuyQuote.tokensReceived].
    rewrite HS. reflexivity. }
  assert (Hrat : reserveRatio s1 = Fin R) by (unfold s1; exact HR).
  assert (Hfee : fee s1 = Fin F) by (unfold s1; exact HF).
  set (S1 := Qred (S + tk)) in *.
  assert (HS1 : S1 == S * v) by (unfold S1; rewrite Qred_correct, Htk; ring).
  assert (HS1pos : 0 < S1) by nra.
  destruct (sell_quote_unit_ratio (JBigNumber (Fin tk)) s1 tk P2 S1 R F
              eq_refl HP2 Hsup Hrat Hfee HS1pos ltac:(nra) Runit)
    as [w [g [sprice [Hw [Hg Hsq]]]]].
  destruct (executeSell_eq _ s1 _ Hsq) as [sp Hsell].
  cbn [BuyResult.tokensReceived].
  eexists. eexists. eexists.
  split; [exact Hbuy|]. split; [exact Hsell|].
  cbn [SellResult.baseReceived SellQuote.baseReceived].
  split; [reflexivity|].
  set (x := Qred (S1 + Qred (- tk)) / S1) in *.
  assert (Hx : x == / v).
  { unfold x. rewrite Qred_correct, Qred_correct, HS1, Htk. field. lra. }
  assert (Hvinv : 0 < / v) by (apply Qinv_lt_0_compat; lra).
  assert (Hw0 : 0 <= w) by (rewrite Hw; apply round_down_nonneg; lra).
  assert (Hwgt : / v < w + epsilon).
  { rewrite <- Hx, Hw. apply round_down_gt. lra. }
  assert (Hmain : g - g * F <= (1 - F) * ((1 - F) * a + P1 * epsilon)).
  { apply (round_trip_bound P a F P1 P2 v w g); assumption. }
  assert (Heps : 0 < epsilon) by reflexivity.
  rewrite !Qred_correct.
  assert (H1 : g + - (g * F)
               <= (1 - F) * ((1 - F) * a + (P + (1 - F) * a) * epsilon)).
  { assert (E : (1 - F) * ((1 - F) * a + (P + (1 - F) * a) * epsilon)
                == (1 - F) * ((1 - F) * a + P1 * epsilon)).
    { rewrite HP1. ring. }
    rewrite E. exact Hmain. }
  split; [exact H1|].
  assert (C2 : (1 - F) * (1 - F) <= 1).
  { assert (0 <= F * (1 - F)) by (apply Qmult_le_0_compat; lra).
    assert (E : (1 - F) * (1 - F) == 1 - F - F * (1 - F)) by ring.
    rewrite E. lra. }
  assert (A1 : (1 - F) * (1 - F) * a <= a).
  { rewrite <- (Qmult_1_l a) at 2. apply Qmult_le_compat_r; [exact C2 | lra]. }
  assert (A0 : (1 - F) * a <= a).
  { rewrite <- (Qmult_1_l a) at 2. apply Qmult_le_compat_r; lra. }
  assert (A2 : (1 - F) * (P + (1 - F) * a) <= P + a).
  { assert (E : (1 - F) * (P + (1 - F) * a)
                == (1 - F) * P + (1 - F) * (1 - F) * a) by ring.
    rewrite E.
    assert ((1 - F) * P <= P).
    { rewrite <- (Qmult_1_l P) at 2. apply Qmult_le_compat_r; lra. }
    lra. }
  assert (A3 : (1 - F) * (P + (1 - F) * a) * epsilon <= (P + a) * epsilon).
  { apply Qmult_le_compat_r; [exact A2 | lra]. }
  assert (E2 : (1 - F) * ((1 - F) * a + (P + (1 - F) * a) * epsilon)
               == (1 - F) * (1 - F) * a
                  + (1 - F) * (P + (1 - F) * a) * epsilon) by ring.
  rewrite E2 in H1.
  set (y1 := (1 - F) * (1 - F) * a) in *.
  set (y2 := (1 - F) * (P + (1 - F) * a) * epsilon) in *.
  set (y3 := (P + a) * epsilon) in *.
  set (y4 := g * F) in *.
  lra.
Qed.

Lemma round_trip_gain_is_bounded_witness :
  exists rb s1 rs s2 n,
    executeBuy (num 100) listedLaunch = Returned rb s1 /\
    executeSell (JBigNumber (BuyResult.tokensReceived rb)) s1 = Returned rs s2 /\
    SellResult.baseReceived rs = Fin n /\
    n <= (1 - (1 # 100))
         * ((1 - (1 # 100)) * 100 + (200000 + (1 - (1 # 100)) * 100) * epsilon) /\
    n <= 100 + (200000 + 100) * epsilon.
Proof.
  apply (round_trip_gain_is_bounded (num 100) listedLaunch
           100 200000 10 1 (1 # 100) (1 # 10) (1 # 20));
    try reflexivity; discriminate.
Defined.

(** C6, counterexample: on [freeLaunch] (fee rate zero) a buy of 2 gives
    2 tokens, and selling them pays 2.000000000000000001: the supply ratio
    1/3 is truncated to 18 places, so the pool kept is short by one unit
    of the last place. *)
Lemma round_trip_pays_more_than_paid :
  ~ roundTripCreatesNoValue (num 2) freeLaunch.
Proof.
  intros H.
  assert (B : exists rb s1, executeBuy (num 2) freeLaunch = Returned rb s1).
  { vm_compute. eexists. eexists. reflexivity. }
  destruct B as [rb [s1 B]].
  assert (S : exists rs s2,
             executeSell (JBigNumber (BuyResult.tokensReceived rb)) s1
               = Returned rs s2 /\
             SellResult.baseReceived rs
               = Fin (2000000000000000001 # 1000000000000000000)).
  { vm_compute in B. injection B as <- <-. vm_compute.
    eexists. eexists. split; reflexivity. }
  destruct S as [rs [s2 [S N]]].
  specialize (H rb s1 rs s2 2 _ B S eq_refl N).
  apply Qle_not_lt in H. apply H. reflexivity.
Qed.

(** [executeSell] on a reserve ratio that is not an integer: once the
    balance check is passed the library throws, with the instance
    untouched. *)
Lemma sell_throws_on_fractional_ratio (amount : JsValue) (s : CurveState) (R : Q) :
  reserveRatio s = Fin R -> isIntegerQ R = false ->
  gt (toBigNumber amount) (currentSupply s) = false ->
  executeSell amount s = Thrown (BigNumberError ExponentNotInteger) s.
Proof.
  intros HR Hi G.
  unfold executeSell, calculateSellTokens, calculatePoolBalance, bind, this,
    library.
  cbv beta iota. rewrite G. cbv beta iota. rewrite HR.
  rewrite pow_invalid by exact Hi. reflexivity.
Qed.

Example default_sell_throws :
  executeSell (num 100) (constructor Params.empty)
    = Thrown (BigNumberError ExponentNotInteger) (constructor Params.empty).
Proof.
  apply (sell_throws_on_fractional_ratio _ _ (1 # 5)); reflexivity.
Qed.

(** ** Further facts about the decimal library *)

Module MoreBigNumberFacts.

Import BigNumber BigNumberFacts.

Lemma round_down_comp (p q : Q) : p == q -> round_down p = round_down q.
Proof.
  intros H. unfold round_down. apply Qred_complete.
  destruct p as [n d], q as [n' d']. unfold Qeq in *. cbn [Qnum Qden] in *.
  generalize scale. intros sc.
  assert (E : (Z.quot (n * Z.pos sc) (Z.pos d) = Z.quot (n' * Z.pos sc) (Z.pos d'))%Z).
  { rewrite <- (Z.quot_mul_cancel_r (n * Z.pos sc) (Z.pos d) (Z.pos d')) by lia.
    rewrite <- (Z.quot_mul_cancel_r (n' * Z.pos sc) (Z.pos d') (Z.pos d)) by lia.
    f_equal; [|ring].
    replace (n * Z.pos sc * Z.pos d')%Z with (n * Z.pos d' * Z.pos sc)%Z by ring.
    rewrite H. ring. }
  rewrite E. reflexivity.
Qed.

Lemma round_down_idem (q : Q) : round_down (round_down q) = round_down q.
Proof.
  rewrite (round_down_comp _ _ (round_down_eq q)).
  unfold round_down at 1. cbn [Qnum Qden].
  rewrite Z.quot_mul by lia. reflexivity.
Qed.



Lemma gte_trans_Fin (x : BigNumber.t) (a b : Q) :
  b <= a -> gte x (Fin a) = true -> gte x (Fin b) = true.
Proof.
  intros Hab H. destruct x as [|neg|c].
  - discriminate.
  - destruct neg; [discriminate|reflexivity].
  - apply gte_Fin in H. apply gte_Fin. lra.
Qed.

Lemma pow_unit_base (e : Q) :
  exponentIsValid (Fin e) = true -> pow (Fin 1) (Fin e) = inr ONE.
Proof.
  intros Hv. unfold pow. rewrite Hv. cbn [negb].
  change (isSpecialBase (Fin 1)) with true. cbn [orb].
  unfold mathPow. change (isZeroQ 1) with false.
  change (isNegativeQ 1) with false. cbn [andb].
  destruct (isZeroQ e); reflexivity.
Qed.

End MoreBigNumberFacts.

Import MoreBigNumberFacts.

(** ** Further properties of the class *)



Lemma calculateBuyTokens_thrown amount s e s' :
  calculateBuyTokens amount s = Thrown e s' -> s' = s.
Proof.
  intros H. pose proof (calculateBuyTokens_state amount s) as E.
  rewrite H in E. exact E.
Qed.

Lemma calculateSellTokens_thrown amount s e s' :
  calculateSellTokens amount s = Thrown e s' -> s' = s.
Proof.
  intros H. pose proof (calculateSellTokens_state amount s) as E.
  rewrite H in E. exact E.
Qed.

Lemma executeBuy_thrown amount s e s' :
  executeBuy amount s = Thrown e s' ->
  s' = s /\ calculateBuyTokens amount s = Thrown e s.
Proof.
  intros H.
  destruct (calculateBuyTokens amount s) as [q s1|e1 s1] eqn:E.
  - pose proof (calculateBuyTokens_returned _ _ _ _ E) as ->.
    destruct (executeBuy_eq amount s q E) as [price Hx].
    rewrite Hx in H. discriminate.
  - pose proof (calculateBuyTokens_thrown _ _ _ _ E) as ->.
    unfold executeBuy, bind in H. rewrite E in H.
    injection H as <- <-. split; reflexivity.
Qed.

Lemma executeSell_thrown amount s e s' :
  executeSell amount s = Thrown e s' ->
  s' = s /\ calculateSellTokens amount s = Thrown e s.
Proof.
  intros H.
  destruct (calculateSellTokens amount s) as [q s1|e1 s1] eqn:E.
  - pose proof (calculateSellTokens_returned _ _ _ _ E) as ->.
    destruct (executeSell_eq amount s q E) as [price Hx].
    rewrite Hx in H. discriminate.
  - pose proof (calculateSellTokens_thrown _ _ _ _ E) as ->.
    unfold executeSell, bind in H. rewrite E in H.
    injection H as <- <-. split; reflexivity.
Qed.

(** X1: an execute operation throws only where its quote throws: the
    exception is the quote's and the instance is left exactly as it was
    (no assignment has been made). *)
Theorem execute_fails_only_in_the_quote (amount : JsValue) (s : CurveState) :
  (forall e s', executeBuy amount s = Thrown e s' ->
     s' = s /\ calculateBuyTokens amount s = Thrown e s) /\
  (forall e s', executeSell amount s = Thrown e s' ->
     s' = s /\ calculateSellTokens amount s = Thrown e s).
Proof.
  split; intros e s' H.
  - exact (executeBuy_thrown _ _ _ _ H).
  - exact (executeSell_thrown _ _ _ _ H).
Qed.

Lemma execute_fails_only_in_the_quote_witness :
  calculateBuyTokens (num 1)
    (constructor (Params.make JUndefined (JString "0.3") JUndefined JUndefined JUndefined))
    = Thrown (BigNumberError ExponentNotInteger)
        (constructor (Params.make JUndefined (JString "0.3") JUndefined JUndefined JUndefined)) /\
  calculateSellTokens (num 1) (constructor Params.empty)
    = Thrown (BigNumberError ExponentNotInteger) (constructor Params.empty).
Proof.
  split.
  - apply (proj1 (execute_fails_only_in_the_quote (num 1) _)
             (BigNumberError ExponentNotInteger)
             (constructor (Params.make JUndefined (JString "0.3") JUndefined JUndefined JUndefined))).
    vm_compute. reflexivity.
  - apply (proj2 (execute_fails_only_in_the_quote (num 1) _)
             (BigNumberError ExponentNotInteger) (constructor Params.empty)).
    vm_compute. reflexivity.
Defined.

(** X2: what an execute operation returns agrees with its quote and with
    the instance it leaves: [tokensReceived] / [baseReceived] and [fee] are
    the quote's, and [newPrice], [currentSupply] and [poolBalance] are
    those of the final instance (for a buy: after the milestone burns). *)
Theorem execute_result_reflects_final_state (amount : JsValue) (s : CurveState) :
  (forall r s', executeBuy amount s = Returned r s' ->
     exists q, calculateBuyTokens amount s = Returned q s /\
       BuyResult.tokensReceived r = BuyQuote.tokensReceived q /\
       BuyResult.fee r = BuyQuote.fee q /\
       getCurrentPrice s' = Returned (BuyResult.newPrice r) s' /\
       BuyResult.currentSupply r = currentSupply s' /\
       BuyResult.poolBalance r = poolBalance s') /\
  (forall r s', executeSell amount s = Returned r s' ->
     exists q, calculateSellTokens amount s = Returned q s /\
       SellResult.baseReceived r = SellQuote.baseReceived q /\
       SellResult.fee r = SellQuote.fee q /\
       getCurrentPrice s' = Returned (SellResult.newPrice r) s' /\
       SellResult.currentSupply r = currentSupply s' /\
       SellResult.poolBalance r = poolBalance s').
Proof.
  split; intros r s' H.
  - destruct (executeBuy_returned _ _ _ _ H) as [q [Hq _]].
    destruct (executeBuy_eq amount s q Hq) as [price Hx].
    exists q. split; [exact Hq|].
    unfold executeBuy, bind in H, Hx. rewrite Hq in H, Hx.
    unfold this, assign in H. cbv beta iota in H.
    fold (afterBuy amount q s) in H. rewrite checkMilestones_eq in H.
    cbv beta iota in H. rewrite getCurrentPrice_eq in H. cbv beta iota in H.
    unfold ret in H. injection H as <- <-.
    rewrite getCurrentPrice_eq. repeat split; reflexivity.
  - destruct (executeSell_returned _ _ _ _ H) as [q [Hq _]].
    exists q. split; [exact Hq|].
    unfold executeSell, bind in H. rewrite Hq in H.
    unfold this, assign in H. cbv beta iota in H.
    rewrite getCurrentPrice_eq in H. cbv beta iota in H.
    unfold ret in H. injection H as <- <-.
    rewrite getCurrentPrice_eq. repeat split; reflexivity.
Qed.

Lemma execute_result_reflects_final_state_witness :
  exists r s',
    executeBuy (num 100) listedLaunch = Returned r s' /\
    BuyResult.fee r = Fin 1 /\
    BuyResult.poolBalance r = poolBalance s' /\
    getCurrentPrice s' = Returned (BuyResult.newPrice r) s'.
Proof.
  destruct (executeBuy (num 100) listedLaunch) as [r s'|e s'] eqn:E;
    [|vm_compute in E; discriminate].
  destruct (proj1 (execute_result_reflects_final_state (num 100) listedLaunch)
              r s' E) as [q [Hq [_ [Hf [Hp [_ Hb]]]]]].
  exists r, s'. split; [reflexivity|]. split; [|split; assumption].
  rewrite Hf. vm_compute in Hq. injection Hq as <-. reflexivity.
Defined.

Lemma perform_constants (op : Operation) (s : CurveState) :
  constants (perform op s) = constants s.
Proof.
  destruct op as [amount|amount]; cbn [perform].
  - destruct (executeBuy amount s) as [r s'|e s'] eqn:E; cbn [stateOf].
    + destruct (executeBuy_returned _ _ _ _ E) as [q [_ Hc]].
      rewrite checkMilestones_eq in Hc. injection Hc as <-. reflexivity.
    + destruct (executeBuy_thrown _ _ _ _ E) as [-> _].
      reflexivity.
  - destruct (executeSell amount s) as [r s'|e s'] eqn:E; cbn [stateOf].
    + destruct (executeSell_returned _ _ _ _ E) as [q [_ ->]]. reflexivity.
    + destruct (executeSell_thrown _ _ _ _ E) as [-> _].
      reflexivity.
Qed.

(** X3: no sequence of buys and sells, returning or throwing, changes
    [initialSupply], [reserveRatio], [initialPrice], [fee], the milestone
    thresholds or the burn fractions. *)
Theorem trades_keep_the_configuration (ops : list Operation) (s : CurveState) :
  constants (performAll ops s) = constants s.
Proof.
  revert s. induction ops as [|op ops IH]; intros s; [reflexivity|].
  cbn [performAll fold_left]. fold (performAll ops (perform op s)).
  rewrite IH. apply perform_constants.
Qed.

(** X4: for a finite pool [p >= 0] and a fraction [f] in [0, 1],
    [burnLiquidity] returns [burnAmount = p * f] and a new pool balance
    that add up to [p] exactly, stores that new balance, and keeps it
    between 0 and [p]. *)
Theorem burnLiquidity_splits_the_pool (s : CurveState) (p f : Q) :
  poolBalance s = Fin p -> 0 <= p -> 0 <= f -> f <= 1 ->
  exists b n,
    burnLiquidity (Fin f) s
      = Returned (BurnResult.make (Fin b) (Fin n)) (with_poolBalance (Fin n) s) /\
    b + n == p /\ b == p * f /\ 0 <= n /\ n <= p.
Proof.
  intros Hp P0 F0 F1.
  unfold burnLiquidity, bind, this, assign, ret. cbv beta iota. rewrite Hp.
  cbn [times minus plus negated fin with_poolBalance poolBalance]. unfold fin.
  eexists. eexists. split; [reflexivity|].
  rewrite !Qred_correct. repeat split; try ring; nra.
Qed.

Lemma burnLiquidity_splits_the_pool_witness :
  exists b n,
    burnLiquidity (Fin (1 # 10)) listedLaunch
      = Returned (BurnResult.make (Fin b) (Fin n))
          (with_poolBalance (Fin n) listedLaunch) /\
    b + n == 200000 /\ b == 200000 * (1 # 10) /\ 0 <= n /\ n <= 200000.
Proof.
  apply (burnLiquidity_splits_the_pool listedLaunch 200000 (1 # 10));
    try reflexivity; discriminate.
Defined.

(** X5: with the thresholds and burn fractions set by the constructor,
    a milestone is reached only together with the lower ones, so one
    evaluation leaves the pool at 85.5% when the second burn is reached,
    at 90% when only the first is, and untouched otherwise. *)
Theorem launch_milestones_are_cumulative (s : CurveState) (p : Q) :
  liquidityMilestones s = liquidityMilestones (constructor Params.empty) ->
  burnPercentages s = burnPercentages (constructor Params.empty) ->
  poolBalance s = Fin p ->
  (reached SecondBurn s = true -> reached FirstBurn s = true) /\
  (reached FirstBurn s = true -> reached AddDexLiquidity s = true) /\
  exists s' p',
    checkMilestones s = Returned tt s' /\
    poolBalance s' = Fin p' /\
    p' == (if reached SecondBurn s then p * (171 # 200)
           else if reached FirstBurn s then p * (9 # 10)
           else p).
Proof.
  intros Hm Hb Hp.
  assert (H21 : reached SecondBurn s = true -> reached FirstBurn s = true).
  { unfold reached, threshold. rewrite Hm.
    apply gte_trans_Fin. discriminate. }
  assert (H10 : reached FirstBurn s = true -> reached AddDexLiquidity s = true).
  { unfold reached, threshold. rewrite Hm.
    apply gte_trans_Fin. discriminate. }
  split; [exact H21|]. split; [exact H10|].
  assert (Hb' : burnPercentages s
                = BurnPercentages.make (Fin (1 # 10)) (Fin (1 # 20))).
  { rewrite Hb. reflexivity. }
  exists (stateOf (checkMilestones s)).
  rewrite checkMilestones_eq.
  cbn [stateOf poolBalance with_fired with_poolBalance]. rewrite Hb', Hp.
  cbn [BurnPercentages.firstBurn BurnPercentages.secondBurn].
  destruct (reached SecondBurn s) eqn:E2.
  - rewrite (H21 eq_refl). cbn [burnt minus plus times negated fin]. unfold fin.
    eexists. split; [reflexivity|]. split; [reflexivity|].
    rewrite !Qred_correct. ring.
  - destruct (reached FirstBurn s); cbn [burnt minus plus times negated fin].
    + unfold fin. eexists. split; [reflexivity|]. split; [reflexivity|].
      rewrite !Qred_correct. ring.
    + exists p. split; [reflexivity|]. split; reflexivity.
Qed.

Lemma launch_milestones_are_cumulative_witness :
  exists s' p',
    checkMilestones (with_poolBalance (Fin 2000000) listedLaunch)
      = Returned tt s' /\
    poolBalance s' = Fin p' /\ p' == 2000000 * (171 # 200).
Proof.
  destruct (launch_milestones_are_cumulative
              (with_poolBalance (Fin 2000000) listedLaunch) 2000000
              eq_refl eq_refl eq_refl) as [_ [_ [s' [p' [Hc [Hp He]]]]]].
  exists s', p'. split; [exact Hc|]. split; [exact Hp|]. exact He.
Defined.

Lemma getMarketCap_eq (s : CurveState) :
  getMarketCap s = Returned (marketCapOf s) s.
Proof. reflexivity. Qed.

(** X6: on an instance with pool [P >= 0] and positive supply [S] and
    reserve ratio [R], the market cap lies in
    [(P / R - S * epsilon, P / R]]; so a milestone with threshold [T] can
    be reached only when [T * R <= P]. *)
Theorem market_cap_is_bounded_by_the_pool (s : CurveState) (P S R : Q) :
  poolBalance s = Fin P -> currentSupply s = Fin S -> reserveRatio s = Fin R ->
  0 <= P -> 0 < S -> 0 < R ->
  exists c,
    getMarketCap s = Returned (Fin c) s /\
    c <= P / R /\ P / R - S * epsilon < c /\
    (forall m T, threshold m s = Fin T -> reached m s = true -> T * R <= P).
Proof.
  intros HP HS HR P0 S0 R0.
  assert (HSR : 0 < S * R) by nra.
  assert (Hcap : marketCapOf s
                 = Fin (Qred (S * round_down (P / Qred (S * R))))).
  { unfold marketCapOf. rewrite HP, HS, HR. cbn [times fin]. unfold fin.
    rewrite div_Fin; [reflexivity|]. rewrite Qred_correct. lra. }
  set (q := P / Qred (S * R)) in *.
  assert (Hq : q == P / (S * R)) by (unfold q; rewrite Qred_correct; reflexivity).
  assert (Hq0 : 0 <= q).
  { rewrite Hq. apply Qle_shift_div_l; [exact HSR|]. lra. }
  assert (Hle := round_down_le q Hq0).
  assert (Hgt := round_down_gt q Hq0).
  assert (E : S * q == P / R).
  { rewrite Hq. field. split; lra. }
  assert (C1 : Qred (S * round_down q) <= P / R).
  { rewrite Qred_correct, <- E. apply Qmult_le_l; assumption. }
  exists (Qred (S * round_down q)).
  split; [rewrite getMarketCap_eq, Hcap; reflexivity|]. split; [exact C1|]. split.
  - rewrite Qred_correct, <- E.
    assert (S * q < S * (round_down q + epsilon)) by (apply Qmult_lt_l; assumption).
    set (y := S * epsilon) in *. set (z := S * round_down q) in *. 
    assert (S * (round_down q + epsilon) == z + y) by (unfold y, z; ring).
    lra.
  - intros m T HT Hr. unfold reached in Hr. rewrite Hcap, HT in Hr.
    apply gte_Fin in Hr.
    assert (T <= P / R) by lra.
    apply (Qmult_le_r _ _ R R0) in H.
    assert (P / R * R == P) by (field; lra).
    lra.
Qed.

Lemma market_cap_is_bounded_by_the_pool_witness :
  exists c,
    getMarketCap (constructor Params.empty)
      = Returned (Fin c) (constructor Params.empty) /\
    c <= 16 / (1 # 5) /\ 16 / (1 # 5) - 800000000 * epsilon < c.
Proof.
  destruct (market_cap_is_bounded_by_the_pool (constructor Params.empty)
              16 800000000 (1 # 5) eq_refl eq_refl eq_refl
              ltac:(discriminate) eq_refl eq_refl) as [c [Hc [H1 [H2 _]]]].
  exists c. split; [exact Hc|]. split; assumption.
Defined.

(** X7: on a new instance built without a [currentSupply] option, with
    finite non-zero supply and reserve ratio, [getCurrentPrice] is the
    initial price truncated to 18 decimal places. *)
Theorem fresh_instance_price (params : Params.t) (S R p : Q) :
  initialSupply (constructor params) = Fin S ->
  reserveRatio (constructor params) = Fin R ->
  initialPrice (constructor params) = Fin p ->
  truthy (Params.currentSupply params) = false ->
  ~ S == 0 -> ~ R == 0 ->
  getCurrentPrice (constructor params)
    = Returned (Fin (round_down p)) (constructor params).
Proof.
  intros HS HR Hp Hc S0 R0.
  rewrite getCurrentPrice_eq. f_equal.
  assert (Hsup : currentSupply (constructor params) = Fin S).
  { rewrite <- HS. unfold constructor, or_else. rewrite Hc. reflexivity. }
  assert (Hpool : poolBalance (constructor params)
                  = times (times (Fin S) (Fin p)) (Fin R)).
  { rewrite <- HS, <- Hp, <- HR. reflexivity. }
  rewrite Hsup, Hpool, HR. cbn [times fin]. unfold fin.
  assert (SR : ~ S * R == 0).
  { intros E. apply Qmult_integral in E. tauto. }
  rewrite div_Fin by (rewrite Qred_correct; exact SR).
  f_equal. apply round_down_comp. rewrite !Qred_correct. field. tauto.
Qed.

Lemma fresh_instance_price_witness :
  getCurrentPrice (constructor Params.empty)
    = Returned (Fin (round_down (1 # 10000000))) (constructor Params.empty).
Proof.
  apply (fresh_instance_price Params.empty 800000000 (1 # 5) (1 # 10000000));
    try reflexivity; discriminate.
Defined.

(** X8: when the amount does not exceed the supply and
    [calculatePoolBalance] returns the finite target [tp] for the remaining
    supply, [executeSell] leaves the pool at [tp] and the supply at
    [S - k]; the fee is [(P - tp) * fee] and payout plus fee is
    [P - tp]. *)
Theorem sell_lands_on_the_target
    (amount : JsValue) (s : CurveState) (k P S F tp : Q) :
  toBigNumber amount = Fin k ->
  poolBalance s = Fin P -> currentSupply s = Fin S -> fee s = Fin F ->
  k <= S ->
  calculatePoolBalance (minus (Fin S) (Fin k)) s = Returned (Fin tp) s ->
  exists r s' p' c' n f,
    executeSell amount s = Returned r s' /\
    poolBalance s' = Fin p' /\ p' == tp /\
    currentSupply s' = Fin c' /\ c' == S - k /\
    SellResult.baseReceived r = Fin n /\ SellResult.fee r = Fin f /\
    f == (P - tp) * F /\ n + f == P - tp.
Proof.
  intros Ha HP HS HF Hk Ht.
  assert (G : gt (Fin k) (Fin S) = false).
  { destruct (gt (Fin k) (Fin S)) eqn:E; [|reflexivity].
    apply gt_Fin in E. lra. }
  assert (Hq : exists price,
             calculateSellTokens amount s
               = Returned
                   (SellQuote.make
                      (minus (minus (Fin P) (Fin tp))
                         (times (minus (Fin P) (Fin tp)) (Fin F)))
                      (times (minus (Fin P) (Fin tp)) (Fin F)) price) s).
  { unfold calculateSellTokens, bind, this. cbv beta iota.
    rewrite Ha, HS, G, Ht. cbv beta iota. rewrite HP, HF.
    eexists. reflexivity. }
  destruct Hq as [price Hq].
  destruct (executeSell_eq amount s _ Hq) as [sp Hx].
  do 6 eexists. split; [exact Hx|].
  cbn [afterSell poolBalance currentSupply with_poolBalance with_currentSupply
       SellQuote.baseReceived SellQuote.fee SellResult.baseReceived
       SellResult.fee].
  rewrite HP, HS, Ha.
  cbn [minus plus times negated fin]. unfold fin.
  repeat split; try reflexivity; rewrite !Qred_correct; ring.
Qed.

Lemma sell_lands_on_the_target_witness :
  exists r s' p' c' n f,
    executeSell (num 5) listedLaunch = Returned r s' /\
    poolBalance s' = Fin p' /\ p' == 100000 /\
    currentSupply s' = Fin c' /\ c' == 10 - 5 /\
    SellResult.baseReceived r = Fin n /\ SellResult.fee r = Fin f /\
    f == (200000 - 100000) * (1 # 100) /\ n + f == 200000 - 100000.
Proof.
  apply (sell_lands_on_the_target (num 5) listedLaunch 5 200000 10 (1 # 100) 100000);
    try reflexivity; discriminate.
Defined.

(** X9: when [calculatenewSupply] returns the finite supply [ns] for
    the pool after the deposit, [executeBuy] evaluates the milestones on an
    instance whose pool is exactly the quote's target pool, leaves the
    supply at [ns], and returns the fee [a * fee] and [ns - S] tokens. *)
Theorem buy_lands_on_the_target
    (amount : JsValue) (s : CurveState) (a P S F ns : Q) :
  toBigNumber amount = Fin a ->
  poolBalance s = Fin P -> currentSupply s = Fin S -> fee s = Fin F ->
  calculatenewSupply
    (plus (Fin P) (minus (Fin a) (times (Fin a) (Fin F)))) s
    = Returned (Fin ns) s ->
  exists q r s' c' f t,
    calculateBuyTokens amount s = Returned q s /\
    executeBuy amount s = Returned r s' /\
    poolBalance (afterBuy amount q s)
      = plus (Fin P) (minus (Fin a) (times (Fin a) (Fin F))) /\
    currentSupply s' = Fin c' /\ c' == ns /\
    BuyResult.fee r = Fin f /\ f == a * F /\
    BuyResult.tokensReceived r = Fin t /\ t == ns - S.
Proof.
  intros Ha HP HS HF Hn.
  assert (Hq : exists price,
             calculateBuyTokens amount s
               = Returned
                   (BuyQuote.make (minus (Fin ns) (Fin S))
                      (times (Fin a) (Fin F)) price) s).
  { unfold calculateBuyTokens, bind, this. cbv beta iota.
    rewrite Ha, HP, HS, HF, Hn. cbv beta iota. eexists. reflexivity. }
  destruct Hq as [price Hq].
  destruct (executeBuy_eq amount s _ Hq) as [bp Hx].
  rewrite checkMilestones_eq in Hx. cbn [stateOf] in Hx.
  do 6 eexists. split; [exact Hq|]. split; [exact Hx|].
  cbn [afterBuy poolBalance currentSupply with_poolBalance with_currentSupply
       with_fired BuyQuote.tokensReceived BuyQuote.fee
       BuyResult.tokensReceived BuyResult.fee].
  rewrite HP, HS, Ha.
  cbn [minus plus times negated fin]. unfold fin.
  repeat split; try reflexivity; rewrite !Qred_correct; ring.
Qed.

Lemma buy_lands_on_the_target_witness :
  exists q r s' c' f t,
    calculateBuyTokens (num 100) listedLaunch = Returned q listedLaunch /\
    executeBuy (num 100) listedLaunch = Returned r s' /\
    poolBalance (afterBuy (num 100) q listedLaunch)
      = plus (Fin 200000) (minus (Fin 100) (times (Fin 100) (Fin (1 # 100)))) /\
    currentSupply s' = Fin c' /\ c' == 200099 # 20000 /\
    BuyResult.fee r = Fin f /\ f == 100 * (1 # 100) /\
    BuyResult.tokensReceived r = Fin t /\ t == (200099 # 20000) - 10.
Proof.
  apply (buy_lands_on_the_target (num 100) listedLaunch
           100 200000 10 (1 # 100) (200099 # 20000));
    reflexivity.
Defined.

Lemma burnt_NaN (b : bool) (pct : BigNumber.t) : burnt b pct NaN = NaN.
Proof. destruct b; reflexivity. Qed.



Lemma perform_NaN (op : Operation) (s : CurveState) :
  (poolBalance s = NaN -> poolBalance (perform op s) = NaN) /\
  (currentSupply s = NaN -> currentSupply (perform op s) = NaN).
Proof.
  destruct op as [amount|amount]; cbn [perform].
  - destruct (executeBuy amount s) as [r s'|e s'] eqn:E; cbn [stateOf].
    + destruct (executeBuy_returned _ _ _ _ E) as [q [_ Hc]].
      rewrite checkMilestones_eq in Hc. injection Hc as <-.
      cbn [poolBalance currentSupply with_fired with_poolBalance
           with_currentSupply afterBuy].
      split; intros ->; [rewrite !burnt_NaN|]; reflexivity.
    + unfold executeBuy, bind in E.
      destruct (calculateBuyTokens amount s) as [q s1|e1 s1] eqn:Eq.
      * pose proof (calculateBuyTokens_returned _ _ _ _ Eq) as ->.
        destruct (executeBuy_eq amount s q Eq) as [bp Hx].
        unfold executeBuy, bind in Hx. rewrite Eq in Hx. rewrite Hx in E.
        discriminate.
      * pose proof (calculateBuyTokens_thrown _ _ _ _ Eq) as ->.
        injection E as _ <-. tauto.
  - destruct (executeSell amount s) as [r s'|e s'] eqn:E; cbn [stateOf].
    + destruct (executeSell_returned _ _ _ _ E) as [q [_ ->]].
      cbn [poolBalance currentSupply with_poolBalance with_currentSupply
           afterSell].
      split; intros ->; reflexivity.
    + unfold executeSell, bind in E.
      destruct (calculateSellTokens amount s) as [q s1|e1 s1] eqn:Eq.
      * pose proof (calculateSellTokens_returned _ _ _ _ Eq) as ->.
        destruct (executeSell_eq amount s q Eq) as [bp Hx].
        unfold executeSell, bind in Hx. rewrite Eq in Hx. rewrite Hx in E.
        discriminate.
      * pose proof (calculateSellTokens_thrown _ _ _ _ Eq) as ->.
        injection E as _ <-. tauto.
Qed.

(** X11: once [poolBalance] is NaN it stays NaN through every sequence
    of buys and sells, and so does [currentSupply]. *)
Theorem NaN_balances_are_permanent (ops : list Operation) (s : CurveState) :
  (poolBalance s = NaN -> poolBalance (performAll ops s) = NaN) /\
  (currentSupply s = NaN -> currentSupply (performAll ops s) = NaN).
Proof.
  revert s. induction ops as [|op ops IH]; intros s; [tauto|].
  cbn [performAll fold_left]. fold (performAll ops (perform op s)).
  destruct (perform_NaN op s) as [Hp Hs].
  destruct (IH (perform op s)) as [IHp IHs].
  split; intros H; auto.
Qed.

Lemma NaN_balances_are_permanent_witness :
  poolBalance
    (performAll [Buy (num 5); Sell (num 1); Buy (num 7)]
       (stateOf (executeBuy (JString "abc") listedLaunch))) = NaN.
Proof.
  apply (proj1 (NaN_balances_are_permanent _ _)). reflexivity.
Defined.

(** X12: at reserve ratio one, with pool [P >= 0], supply [S > 0], a
    fee rate in [0, 1] and an amount [0 <= k <= S], [executeSell] returns,
    the supply becomes [S - k], the pool stays within [0, P] and the
    payout is between 0 and what left the pool. *)
Theorem unit_ratio_sell_keeps_balances_nonnegative
    (amount : JsValue) (s : CurveState) (k P S R F : Q) :
  toBigNumber amount = Fin k ->
  poolBalance s = Fin P -> currentSupply s = Fin S ->
  reserveRatio s = Fin R -> fee s = Fin F ->
  R == 1 -> 0 <= P -> 0 < S -> 0 <= k -> k <= S -> 0 <= F -> F <= 1 ->
  exists r s' p' c' n,
    executeSell amount s = Returned r s' /\
    poolBalance s' = Fin p' /\ 0 <= p' /\ p' <= P /\
    currentSupply s' = Fin c' /\ c' == S - k /\
    SellResult.baseReceived r = Fin n /\ 0 <= n /\ n <= P - p'.
Proof.
  intros Ha HP HS HR HF Runit P0 S0 k0 kS F0 F1.
  destruct (sell_quote_unit_ratio amount s k P S R F Ha HP HS HR HF S0 kS Runit)
    as [w [g [price [Hw [Hg Hq]]]]].
  destruct (executeSell_eq amount s _ Hq) as [sp Hx].
  set (x := Qred (S + Qred (- k)) / S) in *.
  assert (Hx0 : 0 <= x).
  { unfold x. apply Qle_shift_div_l; [exact S0|]. rewrite !Qred_correct. lra. }
  assert (Hx1 : x <= 1).
  { unfold x. apply Qle_shift_div_r; [exact S0|]. rewrite !Qred_correct. lra. }
  assert (Hw0 : 0 <= w) by (rewrite Hw; apply round_down_nonneg; exact Hx0).
  assert (Hw1 : w <= 1).
  { rewrite Hw. apply Qle_trans with x; [apply round_down_le|]; assumption. }
  assert (HPw0 : 0 <= P * w) by (apply Qmult_le_0_compat; assumption).
  assert (HPw1 : P * w <= P).
  { rewrite <- (Qmult_1_r P) at 2. rewrite (Qmult_comm P w), (Qmult_comm P 1).
    apply Qmult_le_compat_r; assumption. }
  assert (Hg0 : 0 <= g) by (rewrite Hg; lra).
  assert (HgP : g <= P) by (rewrite Hg; lra).
  do 5 eexists. split; [exact Hx|].
  cbn [afterSell poolBalance currentSupply with_poolBalance with_currentSupply
       SellQuote.baseReceived SellQuote.fee SellResult.baseReceived].
  rewrite HP, HS, Ha. cbn [minus plus times negated fin]. unfold fin.
  split; [reflexivity|].
  set (y := g * F) in *.
  assert (Hy0 : 0 <= y) by (unfold y; apply Qmult_le_0_compat; assumption).
  assert (Hy1 : y <= g).
  { unfold y. rewrite <- (Qmult_1_r g) at 2. rewrite (Qmult_comm g F), (Qmult_comm g 1).
    apply Qmult_le_compat_r; assumption. }
  split; [rewrite !Qred_correct; lra|].
  split; [rewrite !Qred_correct; lra|].
  split; [reflexivity|].
  split; [rewrite !Qred_correct; ring|].
  split; [reflexivity|].
  split; rewrite !Qred_correct; fold y; lra.
Qed.
Lemma unit_ratio_sell_keeps_balances_nonnegative_witness :
  exists r s' p' c' n,
    executeSell (num 1) smallLaunch = Returned r s' /\
    poolBalance s' = Fin p' /\ 0 <= p' /\ p' <= 3 /\
    currentSupply s' = Fin c' /\ c' == 3 - 1 /\
    SellResult.baseReceived r = Fin n /\ 0 <= n /\ n <= 3 - p'.
Proof.
  apply (unit_ratio_sell_keeps_balances_nonnegative (num 1) smallLaunch
           1 3 3 1 (1 # 100));
    try reflexivity; discriminate.
Defined.





(** X14: at reserve ratio one the two curve formulas invert each other
    up to truncation: the pool balance computed for the supply that
    [calculatenewSupply] gives for a target pool [T >= 0] lies in
    [(T - P * epsilon, T]]. *)
Theorem unit_ratio_formulas_round_trip (s : CurveState) (T P S R : Q) :
  poolBalance s = Fin P -> currentSupply s = Fin S -> reserveRatio s = Fin R ->
  R == 1 -> 0 < P -> 0 < S -> 0 <= T ->
  exists ns back,
    calculatenewSupply (Fin T) s = Returned (Fin ns) s /\
    calculatePoolBalance (Fin ns) s = Returned (Fin back) s /\
    back <= T /\ T - P * epsilon < back.
Proof.
  intros HP HS HR Runit Ppos Spos T0.
  set (t := round_down (T / P)).
  assert (Hq0 : 0 <= T / P) by (apply Qle_shift_div_l; [exact Ppos|lra]).
  assert (Hns : exists v, v == t /\
                calculatenewSupply (Fin T) s = Returned (Fin (Qred (S * v))) s).
  { unfold calculatenewSupply, bind, this, library. cbv beta iota.
    rewrite HP, HS, HR.
    destruct (div_one_unit R Runit) as [e [-> He]].
    rewrite div_Fin by lra. fold t.
    destruct (pow_one t e He) as [v [-> Hv]].
    exists v. split; [exact Hv|]. reflexivity. }
  destruct Hns as [v [Hv Hns]].
  assert (Hback : exists w, w == t /\
                  calculatePoolBalance (Fin (Qred (S * v))) s
                    = Returned (Fin (Qred (P * w))) s).
  { unfold calculatePoolBalance, bind, this, library. cbv beta iota.
    rewrite HP, HS, HR. rewrite div_Fin by lra.
    assert (E : round_down (Qred (S * v) / S) = t).
    { unfold t. rewrite <- (round_down_idem (T / P)). apply round_down_comp.
      fold t. rewrite Qred_correct, Hv. field. lra. }
    rewrite E.
    destruct (pow_one t R Runit) as [w [-> Hw]].
    exists w. split; [exact Hw|]. reflexivity. }
  destruct Hback as [w [Hw Hback]].
  exists (Qred (S * v)), (Qred (P * w)).
  split; [exact Hns|]. split; [exact Hback|].
  assert (Hle := round_down_le (T / P) Hq0).
  assert (Hgt := round_down_gt (T / P) Hq0).
  fold t in Hle, Hgt.
  assert (E : P * (T / P) == T) by (field; lra).
  rewrite Qred_correct, Hw. split.
  - rewrite <- E. apply Qmult_le_l; assumption.
  - assert (P * (T / P) < P * (t + epsilon)) by (apply Qmult_lt_l; assumption).
    assert (E2 : P * (t + epsilon) == P * t + P * epsilon) by ring.
    set (y := P * epsilon) in *. set (z := P * t) in *. lra.
Qed.

Lemma unit_ratio_formulas_round_trip_witness :
  exists ns back,
    calculatenewSupply (Fin 10) smallLaunch = Returned (Fin ns) smallLaunch /\
    calculatePoolBalance (Fin ns) smallLaunch = Returned (Fin back) smallLaunch /\
    back <= 10 /\ 10 - 3 * epsilon < back.
Proof.
  apply (unit_ratio_formulas_round_trip smallLaunch 10 3 3 1);
    try reflexivity; discriminate.
Defined.

(** X15: a buy quote for the amount zero, on a finite non-zero pool
    and reserve ratio whose reciprocal [pow] accepts, carries no tokens and
    no fee. *)
Theorem zero_amount_buys_nothing (amount : JsValue) (s : CurveState) (a P S R F : Q) :
  toBigNumber amount = Fin a -> a == 0 ->
  poolBalance s = Fin P -> currentSupply s = Fin S ->
  reserveRatio s = Fin R -> fee s = Fin F ->
  ~ P == 0 -> ~ R == 0 ->
  exponentIsValid (div ONE (Fin R)) = true ->
  exists q t f,
    calculateBuyTokens amount s = Returned q s /\
    BuyQuote.tokensReceived q = Fin t /\ t == 0 /\
    BuyQuote.fee q = Fin f /\ f == 0.
Proof.
  intros Ha a0 HP HS HR HF P0 R0 Hv.
  unfold calculateBuyTokens, calculatenewSupply, bind, this, library.
  cbv beta iota. rewrite Ha, HP, HS, HR, HF.
  unfold ONE, ofZ in *. rewrite div_Fin in * by exact R0.
  cbn [times minus plus negated fin]. unfold fin.
  rewrite (div_Fin _ P) by exact P0.
  assert (E : round_down (Qred (P + Qred (a + Qred (- Qred (a * F)))) / P) = 1).
  { change 1 with (round_down 1). apply round_down_comp.
    rewrite !Qred_correct, a0. field. exact P0. }
  rewrite E, pow_unit_base by exact Hv.
  unfold ret, ONE, ofZ. cbv beta iota.
  cbn [times minus plus negated fin BuyQuote.tokensReceived BuyQuote.fee].
  unfold fin.
  do 3 eexists. split; [reflexivity|]. split; [reflexivity|].
  split; [|split; [reflexivity|]]; rewrite !Qred_correct.
  - unfold inject_Z. ring.
  - rewrite a0. ring.
Qed.

Lemma zero_amount_buys_nothing_witness :
  exists q t f,
    calculateBuyTokens (JString "0") (constructor Params.empty)
      = Returned q (constructor Params.empty) /\
    BuyQuote.tokensReceived q = Fin t /\ t == 0 /\
    BuyQuote.fee q = Fin f /\ f == 0.
Proof.
  apply (zero_amount_buys_nothing (JString "0") (constructor Params.empty)
           0 16 800000000 (1 # 5) (1 # 100));
    try reflexivity; discriminate.
Defined.

